(** * mixer.blender_client.data: generic datablock synchronisation

    A shallow embedding of [mixer/blender_client/data.py].  The module holds
    eight functions: four [send_data_*] translators that turn a changeset
    into commands queued on [share_data.client], and four [build_data_*]
    handlers that decode one received payload and apply it to
    [share_data.bpy_data_proxy].

    Python code is modelled in a state-and-exception monad [Py]: a computation
    transforms the process state ([World]) and either returns a value or
    raises.  The state survives a raise, as it does in Python.  The
    collaborators the module imports ([Codec], [common.encode_string],
    [common.decode_string], the data store, the formatting of log arguments)
    are interfaces (type classes); the theorems hold for every
    implementation, and a small concrete peer instantiates them. *)

From Stdlib Require Import String Ascii ZArith List Lia Bool.
From Stdlib Require Strings.Byte.
Import ListNotations.

Local Open Scope string_scope.
Local Open Scope Z_scope.
Local Open Scope list_scope.

(** ** Python values *)

(** [str]: a sequence of characters; one [ascii] stands for one character. *)
Definition str := string.

(** [bytes]. *)
Definition bytes := list Byte.byte.

(** Exceptions that are instances of [Exception] (what [except Exception]
    catches).  [UnboundLocalError] is raised by the interpreter when a local
    name is read before any assignment; [Error] is any other instance, raised
    by a collaborator, with its class name and message.  Exits that are not
    instances of [Exception] ([KeyboardInterrupt], [SystemExit]) are not
    modelled. *)
Inductive exception : Type :=
| UnboundLocalError (name : str)
| Error (cls : str) (msg : str).

(** The two ways a call ends. *)
Inductive outcome (A : Type) : Type :=
| Return (a : A)
| Raise (e : exception).
Arguments Return {A} a.
Arguments Raise {A} e.

(** *** Slices

    [s[start:stop]] with step 1: a negative bound counts from the end, and
    each bound is then clamped to [0, len(s)]; the slice is empty when the
    bounds cross. *)
Definition slice_bound (len i : Z) : Z :=
  let i := if i <? 0 then i + len else i in
  Z.max 0 (Z.min len i).

Definition py_slice {A : Type} (s : list A) (start stop : Z) : list A :=
  let len := Z.of_nat (length s) in
  let lo := slice_bound len start in
  let hi := slice_bound len stop in
  firstn (Z.to_nat (hi - lo)) (skipn (Z.to_nat lo) s).

Definition str_slice (s : str) (start stop : Z) : str :=
  string_of_list_ascii (py_slice (list_ascii_of_string s) start stop).

(** ** mixer.broadcaster.common: commands *)

Inductive MessageType : Type :=
| BLENDER_DATA_UPDATE
| BLENDER_DATA_REMOVE
| BLENDER_DATA_RENAME
| BLENDER_DATA_CREATE.

(** [common.Command(type, data, id)]. *)
Record Command : Type := mkCommand {
  cmd_type : MessageType;
  cmd_data : bytes;
  cmd_reserved : Z
}.

(** ** Changesets (mixer.blender_data.proxy)

    [RemovalChangeset] is a list of [(uuid, debug_info)], [RenameChangeset] a
    list of [(uuid, new_name, debug_info)].  Creation and update changesets
    are lists of whatever the [Codec] encodes. *)
Definition RemovalChangeset := list (str * str).
Definition RenameChangeset := list (str * str * str).

(** ** Logging *)

Inductive Level : Type := INFO | ERROR.

Record LogRecord : Type := mkLog { log_level : Level; log_msg : str }.

(** ** Collaborators *)

(** [mixer.blender_data.json_codec.Codec]: [encode] gives a [str], [decode]
    reads one back; both may raise. *)
Class Codec (proxy : Type) : Type := {
  encode : proxy -> outcome str;
  decode : str -> outcome proxy
}.

(** [common.encode_string] and [common.decode_string(data, index)], which
    returns the string and the index after it. *)
Class WireFramer : Type := {
  encode_string : str -> bytes;
  decode_string : bytes -> Z -> outcome (str * Z)
}.

(** [share_data.bpy_data_proxy] over a store state [Store].  An operation may
    change the store and then raise, so each returns the new store with the
    outcome.  [create_datablock] returns a pair, the created datablock and an
    optional [RenameChangeset]. *)
Class BpyDataProxy (proxy datablock Store : Type) : Type := {
  create_datablock : proxy -> Store -> Store * outcome (datablock * option RenameChangeset);
  update_datablock : proxy -> Store -> Store * outcome unit;
  remove_datablock : str -> Store -> Store * outcome unit;
  rename_datablock : str -> str -> Store -> Store * outcome unit
}.

(** What the log shows: [str(x)] for a logged object, and the lines of
    [traceback.format_exc()] for the exception being handled.  Both are
    taken to return. *)
Class Diagnostics (proxy : Type) : Type := {
  repr : proxy -> str;
  format_exc : exception -> list str
}.

(** ** The process state *)

(** Calls received by the store side of [share_data], in order. *)
Inductive Call (proxy : Type) : Type :=
| SetDirty
| CreateDatablock (id_proxy : proxy)
| UpdateDatablock (delta : proxy)
| RemoveDatablock (uuid : str)
| RenameDatablock (uuid new_name : str).
Arguments SetDirty {proxy}.
Arguments CreateDatablock {proxy} id_proxy.
Arguments UpdateDatablock {proxy} delta.
Arguments RemoveDatablock {proxy} uuid.
Arguments RenameDatablock {proxy} uuid new_name.

Record World (proxy Store : Type) : Type := mkWorld {
  experimental_sync : bool;        (* share_data.use_experimental_sync() *)
  client : list Command;           (* share_data.client: queued commands, oldest first *)
  dirty : bool;                    (* set by share_data.set_dirty() *)
  bpy_data_proxy : Store;          (* share_data.bpy_data_proxy *)
  calls : list (Call proxy);       (* calls made on the store side *)
  logged : list LogRecord          (* records emitted through logger *)
}.
Arguments mkWorld {proxy Store}.
Arguments experimental_sync {proxy Store} w.
Arguments client {proxy Store} w.
Arguments dirty {proxy Store} w.
Arguments bpy_data_proxy {proxy Store} w.
Arguments calls {proxy Store} w.
Arguments logged {proxy Store} w.

(** ** The monad *)

Module PyMonad.

Definition Py (W A : Type) : Type := W -> W * outcome A.

Definition ret {W A} (a : A) : Py W A := fun w => (w, Return a).

Definition raise {W A} (e : exception) : Py W A := fun w => (w, Raise e).

Definition bind {W A B} (c : Py W A) (k : A -> Py W B) : Py W B :=
  fun w =>
    match c w with
    | (w', Return a) => k a w'
    | (w', Raise e) => (w', Raise e)
    end.

(** A pure call that may raise. *)
Definition lift {W A} (r : outcome A) : Py W A := fun w => (w, r).

(** [try: body / except Exception: handler]. *)
Definition try_except {W A} (body : Py W A) (handler : exception -> Py W A) : Py W A :=
  fun w =>
    match body w with
    | (w', Return a) => (w', Return a)
    | (w', Raise e) => handler e w'
    end.

(** [for x in xs: body(x)]; a raise in the body ends the loop. *)
Fixpoint for_each {W A} (xs : list A) (body : A -> Py W unit) : Py W unit :=
  match xs with
  | [] => ret tt
  | x :: rest => bind (body x) (fun _ => for_each rest body)
  end.

(** A [try] block whose first statement binds a local name that the handler
    reads: [first] is that statement, [rest] the statements after it.  The
    handler receives the name's binding at the point of the raise: none when
    [first] itself raised. *)
Definition try_except_binding {W L A} (first : Py W L) (rest : L -> Py W A)
    (handler : option L -> exception -> Py W A) : Py W A :=
  fun w =>
    match first w with
    | (w', Raise e) => handler None e w'
    | (w', Return l) => try_except (rest l) (handler (Some l)) w'
    end.

(** Reading a local name: unbound until its first assignment. *)
Definition load_local {W A} (name : str) (v : option A) : Py W A :=
  match v with
  | Some a => ret a
  | None => raise (UnboundLocalError name)
  end.

End PyMonad.
Import PyMonad.

Declare Scope py_scope.
Delimit Scope py_scope with py.
Notation "x <- c ;; k" := (bind c (fun x => k))
  (at level 61, c at next level, right associativity) : py_scope.
Notation "' pat <- c ;; k" := (bind c (fun x => match x with pat => k end))
  (at level 61, pat pattern, c at next level, right associativity) : py_scope.
Notation "c ;; k" := (bind c (fun _ => k))
  (at level 61, right associativity) : py_scope.
Local Open Scope py_scope.

(** ** The module *)

Section Data.

Context {proxy datablock Store : Type}.
Context {codec : Codec proxy} {framer : WireFramer}
        {data_proxy : BpyDataProxy proxy datablock Store}
        {diag : Diagnostics proxy}.

Local Abbreviation W := (World proxy Store).
Local Abbreviation M := (Py W).

(** *** share_data and logger *)

Definition use_experimental_sync : M bool :=
  fun w => (w, Return (experimental_sync w)).

(** [share_data.client.add_command(command)]. *)
Definition add_command (command : Command) : M unit :=
  fun w => (mkWorld (experimental_sync w) (client w ++ [command]) (dirty w)
                    (bpy_data_proxy w) (calls w) (logged w), Return tt).

Definition emit (r : LogRecord) : M unit :=
  fun w => (mkWorld (experimental_sync w) (client w) (dirty w)
                    (bpy_data_proxy w) (calls w) (logged w ++ [r]), Return tt).

Definition logger_info (msg : str) : M unit := emit (mkLog INFO msg).
Definition logger_error (msg : str) : M unit := emit (mkLog ERROR msg).

(** [share_data.set_dirty()]. *)
Definition set_dirty : M unit :=
  fun w => (mkWorld (experimental_sync w) (client w) true
                    (bpy_data_proxy w) (calls w ++ [SetDirty]) (logged w), Return tt).

(** A method call on [share_data.bpy_data_proxy]: the call is recorded, the
    store moves to its new state, and the method's outcome is the call's. *)
Definition store_call {A} (c : Call proxy) (op : Store -> Store * outcome A) : M A :=
  fun w =>
    let (s', r) := op (bpy_data_proxy w) in
    (mkWorld (experimental_sync w) (client w) (dirty w) s' (calls w ++ [c]) (logged w), r).

(** *** Outbound *)

Definition send_data_creations (proxies : list proxy) : M unit :=
  enabled <- use_experimental_sync ;;
  if negb enabled then ret tt else
  for_each proxies (fun proxy =>
    logger_info ("send_data_create " ++ repr proxy)%string ;;
    encoded <- try_except
      (encoded_proxy <- lift (encode proxy) ;; ret (Some encoded_proxy))
      (fun e =>
         logger_error ("send_data_create: encode exception for " ++ repr proxy)%string ;;
         for_each (format_exc e) logger_error ;;
         ret None) ;;
    match encoded with
    | None => ret tt (* continue *)
    | Some encoded_proxy =>
        let buffer := encode_string encoded_proxy in
        let command := mkCommand BLENDER_DATA_CREATE buffer 0 in
        add_command command
    end).

Definition send_data_updates (updates : list proxy) : M unit :=
  enabled <- use_experimental_sync ;;
  if negb enabled then ret tt else
  for_each updates (fun update =>
    logger_info ("send_data_update " ++ repr update)%string ;;
    encoded <- try_except
      (encoded_update <- lift (encode update) ;; ret (Some encoded_update))
      (fun e =>
         logger_error ("send_data_update: encode exception for " ++ repr update)%string ;;
         for_each (format_exc e) logger_error ;;
         ret None) ;;
    match encoded with
    | None => ret tt (* continue *)
    | Some encoded_update =>
        let buffer := encode_string encoded_update in
        let command := mkCommand BLENDER_DATA_UPDATE buffer 0 in
        add_command command
    end).

Definition send_data_removals (removals : RemovalChangeset) : M unit :=
  enabled <- use_experimental_sync ;;
  if negb enabled then ret tt else
  for_each removals (fun '(uuid, debug_info) =>
    logger_info ("send_removal: " ++ uuid ++ " (" ++ debug_info ++ ")")%string ;;
    let buffer := encode_string uuid ++ encode_string debug_info in
    let command := mkCommand BLENDER_DATA_REMOVE buffer 0 in
    add_command command).

Definition send_data_renames (renames : RenameChangeset) : M unit :=
  enabled <- use_experimental_sync ;;
  if negb enabled then ret tt else
  for_each renames (fun '(uuid, new_name, debug_info) =>
    logger_info ("send_rename: " ++ uuid ++ " (" ++ debug_info ++ ") into " ++ new_name)%string ;;
    let buffer := encode_string uuid ++ encode_string new_name ++ encode_string debug_info in
    let command := mkCommand BLENDER_DATA_RENAME buffer 0 in
    add_command command).

(** *** Inbound *)

Definition build_data_create (buffer : bytes) : M unit :=
  enabled <- use_experimental_sync ;;
  if negb enabled then ret tt else
  '(buffer, _) <- lift (decode_string buffer 0) ;;
  (* rename_changeset = None *)
  rename_changeset <- try_except_binding
    (* id_proxy = codec.decode(buffer) *)
    (lift (decode buffer))
    (fun id_proxy =>
       logger_info ("build_data_create: " ++ repr id_proxy)%string ;;
       set_dirty ;;
       '(_, rename_changeset) <- store_call (CreateDatablock id_proxy) (create_datablock id_proxy) ;;
       ret rename_changeset)
    (fun id_proxy e =>
       logger_error "Exception during build_data_create" ;;
       for_each (format_exc e) logger_error ;;
       id_proxy <- load_local "id_proxy" id_proxy ;;
       logger_error ("During processing of buffer for " ++ repr id_proxy)%string ;;
       logger_error (str_slice buffer 0 200) ;;
       logger_error "..." ;;
       logger_error (str_slice buffer (-200) 0) ;;
       logger_error "ignored" ;;
       ret None) ;;
  match rename_changeset with
  | Some ((_ :: _) as renames) => send_data_renames renames
  | _ => ret tt (* None or an empty list *)
  end.

Definition build_data_update (buffer : bytes) : M unit :=
  enabled <- use_experimental_sync ;;
  if negb enabled then ret tt else
  '(buffer, _) <- lift (decode_string buffer 0) ;;
  try_except_binding
    (* delta = codec.decode(buffer) *)
    (lift (decode buffer))
    (fun delta =>
       logger_info ("build_data_update: " ++ repr delta)%string ;;
       set_dirty ;;
       store_call (UpdateDatablock delta) (update_datablock delta))
    (fun delta e =>
       logger_error "Exception during build_data_update" ;;
       for_each (format_exc e) logger_error ;;
       delta <- load_local "delta" delta ;;
       logger_error ("During processing of buffer for " ++ repr delta)%string ;;
       logger_error (str_slice buffer 0 200) ;;
       logger_error "..." ;;
       logger_error (str_slice buffer (-200) 0) ;;
       logger_error "ignored").

Definition build_data_remove (buffer : bytes) : M unit :=
  enabled <- use_experimental_sync ;;
  if negb enabled then ret tt else
  '(uuid, index) <- lift (decode_string buffer 0) ;;
  '(debug_info, index) <- lift (decode_string buffer index) ;;
  logger_info ("build_data_remove: " ++ uuid ++ " (" ++ debug_info ++ ")")%string ;;
  store_call (RemoveDatablock uuid) (remove_datablock uuid) ;;
  set_dirty.

Definition build_data_rename (buffer : bytes) : M unit :=
  enabled <- use_experimental_sync ;;
  if negb enabled then ret tt else
  '(uuid, index) <- lift (decode_string buffer 0) ;;
  '(new_name, index) <- lift (decode_string buffer index) ;;
  '(debug_info, index) <- lift (decode_string buffer index) ;;
  logger_info ("build_data_rename: " ++ uuid ++ " (" ++ debug_info ++ ") into " ++ new_name)%string ;;
  store_call (RenameDatablock uuid new_name) (rename_datablock uuid new_name) ;;
  set_dirty.

End Data.

(** ** Observations

    Functions that name what the module queues, logs and calls, used to state
    its properties. *)

Section Observations.

Context {proxy datablock Store : Type}.
Context {codec : Codec proxy} {framer : WireFramer}
        {data_proxy : BpyDataProxy proxy datablock Store}
        {diag : Diagnostics proxy}.

Local Abbreviation W := (World proxy Store).

(** The encodings of the records of a changeset that encode, in the
    changeset's order. *)
Definition encoded (records : list proxy) : list str :=
  flat_map (fun r => match encode r with Return s => [s] | Raise _ => [] end) records.

(** The command that carries one encoded record. *)
Definition record_command (kind : MessageType) (s : str) : Command :=
  mkCommand kind (encode_string s) 0.

Definition removal_command (r : str * str) : Command :=
  let '(uuid, debug_info) := r in
  mkCommand BLENDER_DATA_REMOVE (encode_string uuid ++ encode_string debug_info) 0.

Definition rename_command (r : str * str * str) : Command :=
  let '(uuid, new_name, debug_info) := r in
  mkCommand BLENDER_DATA_RENAME
    (encode_string uuid ++ encode_string new_name ++ encode_string debug_info) 0.

(** The log records one pass of a creation or update loop emits. *)
Definition send_log (tag : str) (r : proxy) : list LogRecord :=
  mkLog INFO (tag ++ " " ++ repr r)%string ::
  match encode r with
  | Return _ => []
  | Raise e =>
      mkLog ERROR (tag ++ ": encode exception for " ++ repr r)%string ::
      map (mkLog ERROR) (format_exc e)
  end.

Definition removal_log (r : str * str) : LogRecord :=
  let '(uuid, debug_info) := r in
  mkLog INFO ("send_removal: " ++ uuid ++ " (" ++ debug_info ++ ")")%string.

Definition rename_log (r : str * str * str) : LogRecord :=
  let '(uuid, new_name, debug_info) := r in
  mkLog INFO ("send_rename: " ++ uuid ++ " (" ++ debug_info ++ ") into " ++ new_name)%string.

(** The state after a translator ran: commands appended to the queue,
    records appended to the log, nothing else touched. *)
Definition sent (w : W) (cmds : list Command) (logs : list LogRecord) : W :=
  mkWorld (experimental_sync w) (client w ++ cmds) (dirty w)
          (bpy_data_proxy w) (calls w) (logged w ++ logs).

(** The records of an [except] block that runs to its end. *)
Definition handler_log (fn : str) (e : exception) (subject buffer : str) : list LogRecord :=
  mkLog ERROR ("Exception during " ++ fn)%string ::
  map (mkLog ERROR) (format_exc e) ++
  [ mkLog ERROR ("During processing of buffer for " ++ subject)%string;
    mkLog ERROR (str_slice buffer 0 200);
    mkLog ERROR "...";
    mkLog ERROR (str_slice buffer (-200) 0);
    mkLog ERROR "ignored" ].

(** The records of an [except] block stopped by the read of the unbound
    name. *)
Definition handler_log_unbound (fn : str) (e : exception) : list LogRecord :=
  mkLog ERROR ("Exception during " ++ fn)%string :: map (mkLog ERROR) (format_exc e).

(** The state after a handler ran: marked dirty when [marked], the store in
    state [st], and the calls, records and commands appended. *)
Definition applied (w : W) (marked : bool) (st : Store) (cs : list (Call proxy))
    (logs : list LogRecord) (cmds : list Command) : W :=
  mkWorld (experimental_sync w) (client w ++ cmds) (marked || dirty w) st
          (calls w ++ cs) (logged w ++ logs).

(** The renames a truthy [rename_changeset] holds; none when it is [None]
    or empty. *)
Definition renames_of (rename_changeset : option RenameChangeset) : RenameChangeset :=
  match rename_changeset with
  | Some renames => renames
  | None => []
  end.

(** The contract of the wire framer for one string: wherever its encoding
    sits in a buffer, decoding at its first byte gives the string back and
    the index just after the encoding. *)
Definition framed (s : str) : Prop :=
  forall pre post : bytes,
    decode_string (pre ++ encode_string s ++ post) (Z.of_nat (length pre))
    = Return (s, Z.of_nat (length pre) + Z.of_nat (length (encode_string s))).

(** The contract of the [Codec] for one record: what [encode] gives,
    [decode] reads back as the record. *)
Definition codec_inverse (r : proxy) : Prop :=
  forall s, encode r = Return s -> decode s = Return r.

(** What a receiver reads from the payload of a CREATE or UPDATE command:
    the string field, then the record ([build_data_create] and
    [build_data_update], up to [codec.decode]). *)
Definition decode_payload (buffer : bytes) : outcome proxy :=
  match decode_string buffer 0 with
  | Return (s, _) => decode s
  | Raise e => Raise e
  end.

End Observations.

(** ** A concrete peer

    One implementation of each collaborator, small enough to run, on which
    the statements below are evaluated. *)

Module Demo.

(** *** Wire framer *)

Definition byte_of_Z (z : Z) : Byte.byte :=
  match Byte.of_N (Z.to_N z) with
  | Some b => b
  | None => Byte.x00
  end.

Definition Z_of_byte (b : Byte.byte) : Z := Z.of_N (Byte.to_N b).

(** [value.to_bytes(size, byteorder="little")]. *)
Fixpoint int_to_bytes (size : nat) (value : Z) : bytes :=
  match size with
  | O => []
  | S size' => byte_of_Z (value mod 256) :: int_to_bytes size' (value / 256)
  end.

(** [int.from_bytes(value, "little")]. *)
Definition bytes_to_int (value : bytes) : Z :=
  fold_right (fun b acc => Z_of_byte b + 256 * acc) 0 value.

(** Modelled from the spec: the Wire Framer ([mixer.broadcaster.common], not
    part of this module), whose strings are length-prefixed.  The prefix is
    the byte length on four bytes, least significant first; a string of
    [2^32] bytes or more is outside the model, which wraps its length. *)
Definition demo_encode_string (value : str) : bytes :=
  let encoded_value := list_byte_of_string value in
  int_to_bytes 4 (Z.of_nat (length encoded_value)) ++ encoded_value.

Definition demo_decode_string (data : bytes) (index : Z) : outcome (str * Z) :=
  let string_length := bytes_to_int (py_slice data index (index + 4)) in
  let start := index + 4 in
  let end_ := start + string_length in
  let value := string_of_list_byte (py_slice data start end_) in
  Return (value, end_).

#[export] Instance framer : WireFramer := {
  encode_string := demo_encode_string;
  decode_string := demo_decode_string
}.

(** *** Codec *)

(** A record is an identifier and a name. *)
Definition IdProxy : Type := (str * str)%type.

Definition bar : ascii := "|"%char.

Fixpoint has_bar (s : str) : bool :=
  match s with
  | EmptyString => false
  | String c rest => Ascii.eqb c bar || has_bar rest
  end.

Fixpoint split_bar (s : str) : option (str * str) :=
  match s with
  | EmptyString => None
  | String c rest =>
      if Ascii.eqb c bar then Some (EmptyString, rest)
      else match split_bar rest with
           | Some (u, n) => Some (String c u, n)
           | None => None
           end
  end.

(** Modelled from the spec: the Codec ([mixer.blender_data.json_codec], not
    part of this module), a stand-in for its contract: [encode] raises on a
    record it cannot serialize (here an identifier that is empty or holds the
    separator), [decode] raises on text that is no encoding, and
    [decode(encode(r)) == r]. *)
Definition demo_encode (r : IdProxy) : outcome str :=
  let '(uuid, name) := r in
  if String.eqb uuid EmptyString || has_bar uuid
  then Raise (Error "TypeError" "Object is not JSON serializable")
  else Return (uuid ++ "|" ++ name)%string.

Definition demo_decode (s : str) : outcome IdProxy :=
  match split_bar s with
  | Some (uuid, name) =>
      if String.eqb uuid EmptyString
      then Raise (Error "JSONDecodeError" "Expecting value")
      else Return (uuid, name)
  | None => Raise (Error "JSONDecodeError" "Expecting value")
  end.

#[export] Instance codec : Codec IdProxy := {
  encode := demo_encode;
  decode := demo_decode
}.

(** *** Data store *)

(** The datablocks, as (identifier, name) pairs. *)
Definition DemoStore : Type := list (str * str).

Definition has_uuid (uuid : str) (st : DemoStore) : bool :=
  existsb (fun d => String.eqb (fst d) uuid) st.

Definition has_name (name : str) (st : DemoStore) : bool :=
  existsb (fun d => String.eqb (snd d) name) st.

Definition set_name (uuid name : str) (st : DemoStore) : DemoStore :=
  map (fun d => if String.eqb (fst d) uuid then (uuid, name) else d) st.

(** Modelled from the spec: the data store ([share_data.bpy_data_proxy], not
    part of this module), a stand-in for its contract: creation returns the
    identity and, on a name collision, a rename changeset with the name the
    store gave instead; the other operations reject an unknown identifier. *)
Definition demo_create (r : IdProxy) (st : DemoStore)
  : DemoStore * outcome (str * option RenameChangeset) :=
  let '(uuid, name) := r in
  if has_uuid uuid st then (st, Raise (Error "ValueError" "datablock exists"))
  else if has_name name st
  then let new_name := (name ++ ".001")%string in
       (st ++ [(uuid, new_name)], Return (uuid, Some [(uuid, new_name, name)]))
  else (st ++ [(uuid, name)], Return (uuid, None)).

Definition demo_update (r : IdProxy) (st : DemoStore) : DemoStore * outcome unit :=
  let '(uuid, name) := r in
  if has_uuid uuid st then (set_name uuid name st, Return tt)
  else (st, Raise (Error "KeyError" uuid)).

Definition demo_remove (uuid : str) (st : DemoStore) : DemoStore * outcome unit :=
  if has_uuid uuid st
  then (filter (fun d => negb (String.eqb (fst d) uuid)) st, Return tt)
  else (st, Raise (Error "KeyError" uuid)).

Definition demo_rename (uuid new_name : str) (st : DemoStore) : DemoStore * outcome unit :=
  if has_uuid uuid st then (set_name uuid new_name st, Return tt)
  else (st, Raise (Error "KeyError" uuid)).

#[export] Instance data_proxy : BpyDataProxy IdProxy str DemoStore := {
  create_datablock := demo_create;
  update_datablock := demo_update;
  remove_datablock := demo_remove;
  rename_datablock := demo_rename
}.

(** *** Diagnostics *)

Definition demo_repr (r : IdProxy) : str :=
  let '(uuid, name) := r in (name ++ " " ++ uuid)%string.

Definition demo_format_exc (e : exception) : list str :=
  "Traceback (most recent call last):" ::
  match e with
  | UnboundLocalError name =>
      [("UnboundLocalError: local variable " ++ name ++ " referenced before assignment")%string]
  | Error cls msg => [(cls ++ ": " ++ msg)%string]
  end.

#[export] Instance diag : Diagnostics IdProxy := {
  repr := demo_repr;
  format_exc := demo_format_exc
}.

(** *** States and inputs *)

(** A connected peer with the gate open and one datablock. *)
Definition world0 : World IdProxy DemoStore :=
  mkWorld true [] false [("uuid-0", "Cube")] [] [].

(** The same peer with the gate closed. *)
Definition world_off : World IdProxy DemoStore :=
  mkWorld false [] false [("uuid-0", "Cube")] [] [].

(** A peer that also holds the datablock [uuid-1]. *)
Definition world1 : World IdProxy DemoStore :=
  mkWorld true [] false [("uuid-0", "Cube"); ("uuid-1", "Lamp")] [] [].

(** Payloads as a sender frames them: text that is no encoding of a record,
    an update for an identifier the store does not hold, a creation whose
    name is taken, and a removal for an identifier the store does not
    hold. *)
Definition garbage_payload : bytes := demo_encode_string "garbage".
Definition ghost_update_payload : bytes := demo_encode_string "ghost|Name".
Definition collision_payload : bytes := demo_encode_string "uuid-9|Cube".
Definition ghost_removal_payload : bytes :=
  demo_encode_string "ghost" ++ demo_encode_string "obj".

Definition sd_creations := send_data_creations (proxy:=IdProxy) (Store:=DemoStore).
Definition sd_updates := send_data_updates (proxy:=IdProxy) (Store:=DemoStore).
Definition sd_removals := send_data_removals (proxy:=IdProxy) (Store:=DemoStore).
Definition bd_create := build_data_create (proxy:=IdProxy) (Store:=DemoStore).
Definition bd_update := build_data_update (proxy:=IdProxy) (Store:=DemoStore).
Definition bd_remove := build_data_remove (proxy:=IdProxy) (Store:=DemoStore).

(** *** A framer that rejects malformed text *)

(** Bytes [0xF8] to [0xFF] occur in no UTF-8 text. *)
Definition never_utf8 (b : Byte.byte) : bool := 248 <=? Z_of_byte b.

(** Modelled from the spec: the Wire Framer ([mixer.broadcaster.common], not
    part of this module), with the same layout as [demo_decode_string], and
    whose decoding of the text raises [UnicodeDecodeError] on a byte that
    occurs in no UTF-8 text. *)
Definition strict_decode_string (data : bytes) (index : Z) : outcome (str * Z) :=
  let string_length := bytes_to_int (py_slice data index (index + 4)) in
  let start := index + 4 in
  let end_ := start + string_length in
  let text := py_slice data start end_ in
  if existsb never_utf8 text
  then Raise (Error "UnicodeDecodeError" "invalid start byte")
  else Return (string_of_list_byte text, end_).

Definition strict_framer : WireFramer := {|
  encode_string := demo_encode_string;
  decode_string := strict_decode_string
|}.

(** One string field whose text is the byte [0xFF], and a well-formed field
    followed by such a field. *)
Definition malformed_payload : bytes :=
  [Byte.x01; Byte.x00; Byte.x00; Byte.x00; Byte.xff].
Definition half_malformed_payload : bytes :=
  demo_encode_string "uuid-1" ++ malformed_payload.

End Demo.

(** ** Slices *)

Section Slices.

Context {A : Type}.

Lemma slice_bound_range (len i : Z) : 0 <= len -> 0 <= slice_bound len i <= len.
Proof. unfold slice_bound. destruct (i <? 0); lia. Qed.

Lemma slice_bound_inside (len i : Z) : 0 <= i <= len -> slice_bound len i = i.
Proof.
  intros H. unfold slice_bound.
  destruct (Z.ltb_spec i 0); lia.
Qed.

(** [s[start:0]] is empty, whatever [start] is. *)
Lemma py_slice_stop_0 (s : list A) (start : Z) : py_slice s start 0 = [].
Proof.
  unfold py_slice.
  pose proof (slice_bound_range (Z.of_nat (length s)) start ltac:(lia)) as L.
  rewrite (slice_bound_inside (Z.of_nat (length s)) 0) by lia.
  replace (Z.to_nat (0 - slice_bound (Z.of_nat (length s)) start)) with 0%nat by lia.
  reflexivity.
Qed.

(** [s[0:n]] is the first [n] items. *)
Lemma py_slice_head (s : list A) (n : nat) : py_slice s 0 (Z.of_nat n) = firstn n s.
Proof.
  unfold py_slice.
  rewrite (slice_bound_inside (Z.of_nat (length s)) 0) by lia.
  cbn [Z.to_nat skipn]. rewrite Z.sub_0_r.
  unfold slice_bound.
  destruct (Z.ltb_spec (Z.of_nat n) 0); [lia|].
  destruct (Z.le_ge_cases (Z.of_nat (length s)) (Z.of_nat n)).
  - rewrite Z.min_l, Z.max_r, Nat2Z.id by lia.
    rewrite !firstn_all2 by lia. reflexivity.
  - rewrite Z.min_r, Z.max_r, Nat2Z.id by lia. reflexivity.
Qed.

(** A slice cut at the bounds of a segment is the segment. *)
Lemma py_slice_inside (pre x post : list A) :
  py_slice (pre ++ x ++ post)
           (Z.of_nat (length pre)) (Z.of_nat (length pre) + Z.of_nat (length x)) = x.
Proof.
  unfold py_slice. rewrite !length_app.
  rewrite !slice_bound_inside by lia.
  replace (Z.to_nat (Z.of_nat (length pre) + Z.of_nat (length x) - Z.of_nat (length pre)))
    with (length x) by lia.
  rewrite Nat2Z.id, skipn_app, skipn_all, Nat.sub_diag. cbn [skipn app].
  rewrite firstn_app, firstn_all, Nat.sub_diag. cbn [firstn]. apply app_nil_r.
Qed.

End Slices.

(** The second dump of the handlers, [buffer[-200:0]], is the empty string. *)
Lemma str_slice_stop_0 (buffer : str) (start : Z) : str_slice buffer start 0 = EmptyString.
Proof. unfold str_slice. now rewrite py_slice_stop_0. Qed.

(** The first dump, [buffer[0:200]], is the first 200 characters. *)
Lemma str_slice_head (buffer : str) :
  str_slice buffer 0 200 = string_of_list_ascii (firstn 200 (list_ascii_of_string buffer)).
Proof. unfold str_slice. now rewrite (py_slice_head _ 200). Qed.

(** ** The concrete framer and codec meet their contracts *)

Section DemoContracts.

Import Demo.

Lemma Z_of_byte_of_Z (z : Z) : 0 <= z < 256 -> Z_of_byte (byte_of_Z z) = z.
Proof.
  intros H. unfold Z_of_byte, byte_of_Z.
  destruct (Byte.of_N (Z.to_N z)) as [b|] eqn:E.
  - apply Byte.to_of_N in E. lia.
  - apply Byte.of_N_None_iff in E. lia.
Qed.

Lemma length_int_to_bytes (size : nat) (value : Z) : length (int_to_bytes size value) = size.
Proof. revert value; induction size; intros; cbn; [reflexivity|now rewrite IHsize]. Qed.

Lemma bytes_to_int_to_bytes (size : nat) (value : Z) :
  0 <= value < 256 ^ Z.of_nat size ->
  bytes_to_int (int_to_bytes size value) = value.
Proof.
  revert value; induction size as [|size IH]; intros value H.
  - cbn in *. lia.
  - cbn [int_to_bytes]. unfold bytes_to_int in *. cbn [fold_right].
    rewrite Z_of_byte_of_Z by (apply Z.mod_pos_bound; lia).
    rewrite IH.
    + pose proof (Z.div_mod value 256 ltac:(lia)). lia.
    + rewrite Nat2Z.inj_succ, Z.pow_succ_r in H by lia.
      split; [apply Z.div_pos; lia | apply Z.div_lt_upper_bound; lia].
Qed.

Lemma demo_framed (s : str) :
  Z.of_nat (String.length s) < 2 ^ 32 -> framed s.
Proof.
  intros H pre post. cbn [decode_string encode_string framer].
  unfold demo_decode_string, demo_encode_string.
  set (body := list_byte_of_string s).
  assert (Lb : length body = String.length s).
  { unfold body, list_byte_of_string. rewrite length_map.
    clear. induction s; cbn; congruence. }
  set (prefix := int_to_bytes 4 (Z.of_nat (length body))).
  assert (Lp : length prefix = 4%nat) by apply length_int_to_bytes.
  rewrite <- app_assoc.
  replace (Z.of_nat (length pre) + 4)
    with (Z.of_nat (length pre) + Z.of_nat (length prefix)) by lia.
  rewrite py_slice_inside.
  assert (Ep : bytes_to_int prefix = Z.of_nat (length body)).
  { unfold prefix. apply bytes_to_int_to_bytes. rewrite Lb. cbn. lia. }
  rewrite Ep.
  replace (Z.of_nat (length pre) + Z.of_nat (length prefix))
    with (Z.of_nat (length (pre ++ prefix))) by (rewrite length_app; lia).
  rewrite (app_assoc pre prefix), py_slice_inside.
  unfold body at 1. rewrite string_of_list_byte_of_string.
  rewrite !length_app. do 2 f_equal. lia.
Qed.

Lemma split_bar_join (uuid name : str) :
  has_bar uuid = false ->
  split_bar (uuid ++ String bar name)%string = Some (uuid, name).
Proof.
  induction uuid as [|c uuid IH]; cbn; intros H.
  - reflexivity.
  - apply orb_false_iff in H as [Hc Hr]. rewrite Hc, (IH Hr). reflexivity.
Qed.

Lemma demo_codec_inverse (r : IdProxy) : codec_inverse r.
Proof.
  destruct r as [uuid name]. intros s E. cbn in E. unfold demo_encode in E.
  destruct (String.eqb uuid EmptyString || has_bar uuid) eqn:B; [discriminate|].
  injection E as <-. apply orb_false_iff in B as [Be Bb].
  cbn. unfold demo_decode.
  pose proof (split_bar_join uuid name Bb) as J. unfold bar in J.
  cbn. now rewrite J, Be.
Qed.

End DemoContracts.

(** ** What the translators queue and log *)

Section Outbound.

Context {proxy datablock Store : Type}.
Context {codec : Codec proxy} {framer : WireFramer}
        {data_proxy : BpyDataProxy proxy datablock Store}
        {diag : Diagnostics proxy}.

Local Abbreviation W := (World proxy Store).

Ltac world_eq :=
  unfold sent; cbn;
  repeat rewrite <- app_assoc; repeat rewrite app_nil_r; cbn; reflexivity.

Lemma sent_nil (w : W) : sent w [] [] = w.
Proof. destruct w; unfold sent; cbn. now rewrite !app_nil_r. Qed.

Lemma sent_sent (w : W) c1 l1 c2 l2 :
  sent (sent w c1 l1) c2 l2 = sent w (c1 ++ c2) (l1 ++ l2).
Proof. unfold sent; cbn. now rewrite !app_assoc. Qed.

Lemma for_each_logger_error (lines : list str) (w : W) :
  for_each lines (logger_error (proxy:=proxy) (Store:=Store)) w
  = (sent w [] (map (mkLog ERROR) lines), Return tt).
Proof.
  revert w; induction lines as [|line lines IH]; intros w; cbn.
  - now rewrite sent_nil.
  - unfold bind, logger_error, emit at 1. rewrite IH. world_eq.
Qed.

Ltac codec_loop records p ps IH :=
  unfold bind at 1, use_experimental_sync;
  match goal with
  | |- context [experimental_sync ?w] =>
      destruct (experimental_sync w); cbn [negb]; [|reflexivity];
      revert w; induction records as [|p ps IH]; intros w
  end;
  [ cbn; now rewrite sent_nil
  | cbn [for_each]; unfold bind at 1;
    unfold bind at 1, logger_info, emit at 1;
    unfold bind at 1, try_except, lift, ret;
    unfold encoded, send_log; cbn [flat_map]; fold (encoded ps);
    destruct (encode p) as [s|e]; cbn;
    [ rewrite IH; world_eq
    | unfold bind at 1; rewrite for_each_logger_error; cbn;
      rewrite IH; world_eq ] ].

Lemma creations_loop (proxies : list proxy) (w : W) :
  send_data_creations proxies w =
  if experimental_sync w
  then (sent w (map (record_command BLENDER_DATA_CREATE) (encoded proxies))
               (flat_map (send_log "send_data_create") proxies), Return tt)
  else (w, Return tt).
Proof. unfold send_data_creations. codec_loop proxies p ps IH. Qed.

Lemma updates_loop (updates : list proxy) (w : W) :
  send_data_updates updates w =
  if experimental_sync w
  then (sent w (map (record_command BLENDER_DATA_UPDATE) (encoded updates))
               (flat_map (send_log "send_data_update") updates), Return tt)
  else (w, Return tt).
Proof. unfold send_data_updates. codec_loop updates p ps IH. Qed.

Ltac framer_loop records r rs IH :=
  unfold bind at 1, use_experimental_sync;
  match goal with
  | |- context [experimental_sync ?w] =>
      destruct (experimental_sync w); cbn [negb]; [|reflexivity];
      revert w; induction records as [|r rs IH]; intros w
  end;
  [ cbn; now rewrite sent_nil
  | cbn [for_each map]; unfold bind at 1;
    repeat match goal with x : (_ * _)%type |- _ => destruct x end;
    unfold bind at 1, logger_info, emit at 1, add_command at 1;
    rewrite IH; world_eq ].

Lemma removals_loop (removals : RemovalChangeset) (w : W) :
  send_data_removals removals w =
  if experimental_sync w
  then (sent w (map removal_command removals) (map removal_log removals), Return tt)
  else (w, Return tt).
Proof. unfold send_data_removals. framer_loop removals r rs IH. Qed.

Lemma renames_loop (renames : RenameChangeset) (w : W) :
  send_data_renames renames w =
  if experimental_sync w
  then (sent w (map rename_command renames) (map rename_log renames), Return tt)
  else (w, Return tt).
Proof. unfold send_data_renames. framer_loop renames r rs IH. Qed.

End Outbound.

(** ** What the handlers do to the state *)

Section Inbound.

Context {proxy datablock Store : Type}.
Context {codec : Codec proxy} {framer : WireFramer}
        {data_proxy : BpyDataProxy proxy datablock Store}
        {diag : Diagnostics proxy}.

Local Abbreviation W := (World proxy Store).

Ltac enter H :=
  unfold bind at 1, use_experimental_sync; rewrite H; cbn [negb].

Ltac finish :=
  unfold applied, sent, bind, ret, logger_error, logger_info, emit, set_dirty; cbn;
  repeat rewrite <- app_assoc; repeat rewrite app_nil_r; cbn; reflexivity.

(** A payload the [Codec] cannot decode. *)
Lemma create_undecodable (buffer : bytes) (w : W) s i e :
  experimental_sync w = true ->
  decode_string buffer 0 = Return (s, i) ->
  decode s = Raise e ->
  build_data_create buffer w =
  (sent w [] (handler_log_unbound "build_data_create" e),
   Raise (UnboundLocalError "id_proxy")).
Proof.
  intros G F D. unfold build_data_create. enter G.
  unfold bind at 1, lift at 1. rewrite F.
  unfold bind at 1, try_except_binding, lift at 1. rewrite D.
  unfold bind at 1, logger_error at 1, emit at 1.
  unfold bind at 1. rewrite for_each_logger_error.
  unfold handler_log_unbound. finish.
Qed.

Lemma update_undecodable (buffer : bytes) (w : W) s i e :
  experimental_sync w = true ->
  decode_string buffer 0 = Return (s, i) ->
  decode s = Raise e ->
  build_data_update buffer w =
  (sent w [] (handler_log_unbound "build_data_update" e),
   Raise (UnboundLocalError "delta")).
Proof.
  intros G F D. unfold build_data_update. enter G.
  unfold bind at 1, lift at 1. rewrite F.
  unfold try_except_binding, lift at 1. rewrite D.
  unfold bind at 1, logger_error at 1, emit at 1.
  unfold bind at 1. rewrite for_each_logger_error.
  unfold handler_log_unbound. finish.
Qed.

(** A decoded record the store rejects. *)
Lemma create_rejected (buffer : bytes) (w : W) s i id_proxy st e :
  experimental_sync w = true ->
  decode_string buffer 0 = Return (s, i) ->
  decode s = Return id_proxy ->
  create_datablock id_proxy (bpy_data_proxy w) = (st, Raise e) ->
  build_data_create buffer w =
  (applied w true st [SetDirty; CreateDatablock id_proxy]
     (mkLog INFO ("build_data_create: " ++ repr id_proxy)%string ::
      handler_log "build_data_create" e (repr id_proxy) s) [],
   Return tt).
Proof.
  intros G F D A. unfold build_data_create. enter G.
  unfold bind at 1, lift at 1. rewrite F.
  unfold bind at 1, try_except_binding, lift at 1. rewrite D.
  unfold try_except, bind at 1, logger_info, emit at 1.
  unfold bind at 1, set_dirty at 1.
  unfold bind at 1, store_call at 1. cbn [bpy_data_proxy]. rewrite A.
  unfold bind at 1, logger_error at 1, emit at 1.
  unfold bind at 1. rewrite for_each_logger_error.
  unfold handler_log. finish.
Qed.

Lemma update_rejected (buffer : bytes) (w : W) s i delta st e :
  experimental_sync w = true ->
  decode_string buffer 0 = Return (s, i) ->
  decode s = Return delta ->
  update_datablock delta (bpy_data_proxy w) = (st, Raise e) ->
  build_data_update buffer w =
  (applied w true st [SetDirty; UpdateDatablock delta]
     (mkLog INFO ("build_data_update: " ++ repr delta)%string ::
      handler_log "build_data_update" e (repr delta) s) [],
   Return tt).
Proof.
  intros G F D A. unfold build_data_update. enter G.
  unfold bind at 1, lift at 1. rewrite F.
  unfold try_except_binding, lift at 1. rewrite D.
  unfold try_except, bind at 1, logger_info, emit at 1.
  unfold bind at 1, set_dirty at 1.
  unfold store_call at 1. cbn [bpy_data_proxy]. rewrite A.
  unfold bind at 1, logger_error at 1, emit at 1.
  unfold bind at 1. rewrite for_each_logger_error.
  unfold handler_log. finish.
Qed.

(** A decoded record the store accepts. *)
Lemma create_accepted (buffer : bytes) (w : W) s i id_proxy st d rename_changeset :
  experimental_sync w = true ->
  decode_string buffer 0 = Return (s, i) ->
  decode s = Return id_proxy ->
  create_datablock id_proxy (bpy_data_proxy w) = (st, Return (d, rename_changeset)) ->
  build_data_create buffer w =
  (applied w true st [SetDirty; CreateDatablock id_proxy]
     (mkLog INFO ("build_data_create: " ++ repr id_proxy)%string ::
      map rename_log (renames_of rename_changeset))
     (map rename_command (renames_of rename_changeset)),
   Return tt).
Proof.
  intros G F D A. unfold build_data_create. enter G.
  unfold bind at 1, lift at 1. rewrite F.
  unfold bind at 1, try_except_binding, lift at 1. rewrite D.
  unfold try_except, bind at 1, logger_info, emit at 1.
  unfold bind at 1, set_dirty at 1.
  unfold bind at 1, store_call at 1. cbn [bpy_data_proxy]. rewrite A.
  cbn [ret].
  destruct rename_changeset as [[|r rs]|]; cbn [renames_of]; try finish.
  rewrite renames_loop. unfold applied. cbn [experimental_sync]. rewrite !G. finish.
Qed.

Lemma update_accepted (buffer : bytes) (w : W) s i delta st :
  experimental_sync w = true ->
  decode_string buffer 0 = Return (s, i) ->
  decode s = Return delta ->
  update_datablock delta (bpy_data_proxy w) = (st, Return tt) ->
  build_data_update buffer w =
  (applied w true st [SetDirty; UpdateDatablock delta]
     [mkLog INFO ("build_data_update: " ++ repr delta)%string] [],
   Return tt).
Proof.
  intros G F D A. unfold build_data_update. enter G.
  unfold bind at 1, lift at 1. rewrite F.
  unfold try_except_binding, lift at 1. rewrite D.
  unfold try_except, bind at 1, logger_info, emit at 1.
  unfold bind at 1, set_dirty at 1.
  unfold store_call at 1. cbn [bpy_data_proxy]. rewrite A.
  finish.
Qed.

(** Removal and rename: the store call is not inside a [try]. *)
Lemma remove_run (buffer : bytes) (w : W) uuid i debug_info j st r :
  experimental_sync w = true ->
  decode_string buffer 0 = Return (uuid, i) ->
  decode_string buffer i = Return (debug_info, j) ->
  remove_datablock uuid (bpy_data_proxy w) = (st, r) ->
  build_data_remove buffer w =
  let info := mkLog INFO ("build_data_remove: " ++ uuid ++ " (" ++ debug_info ++ ")")%string in
  match r with
  | Return _ => (applied w true st [RemoveDatablock uuid; SetDirty] [info] [], Return tt)
  | Raise e => (applied w false st [RemoveDatablock uuid] [info] [], Raise e)
  end.
Proof.
  intros G F1 F2 A. unfold build_data_remove. enter G.
  unfold bind at 1, lift at 1. rewrite F1.
  unfold bind at 1, lift at 1. rewrite F2.
  unfold bind at 1, logger_info, emit at 1.
  unfold bind at 1, store_call at 1. cbn [bpy_data_proxy]. rewrite A.
  destruct r as [[]|e]; finish.
Qed.

Lemma rename_run (buffer : bytes) (w : W) uuid i new_name j debug_info k st r :
  experimental_sync w = true ->
  decode_string buffer 0 = Return (uuid, i) ->
  decode_string buffer i = Return (new_name, j) ->
  decode_string buffer j = Return (debug_info, k) ->
  rename_datablock uuid new_name (bpy_data_proxy w) = (st, r) ->
  build_data_rename buffer w =
  let info := mkLog INFO ("build_data_rename: " ++ uuid ++ " (" ++ debug_info
                          ++ ") into " ++ new_name)%string in
  match r with
  | Return _ =>
      (applied w true st [RenameDatablock uuid new_name; SetDirty] [info] [], Return tt)
  | Raise e => (applied w false st [RenameDatablock uuid new_name] [info] [], Raise e)
  end.
Proof.
  intros G F1 F2 F3 A. unfold build_data_rename. enter G.
  unfold bind at 1, lift at 1. rewrite F1.
  unfold bind at 1, lift at 1. rewrite F2.
  unfold bind at 1, lift at 1. rewrite F3.
  unfold bind at 1, logger_info, emit at 1.
  unfold bind at 1, store_call at 1. cbn [bpy_data_proxy]. rewrite A.
  destruct r as [[]|e]; finish.
Qed.

End Inbound.

(** ** Properties of the module *)

Section Properties.

Context {proxy datablock Store : Type}.
Context {codec : Codec proxy} {framer : WireFramer}
        {data_proxy : BpyDataProxy proxy datablock Store}
        {diag : Diagnostics proxy}.

Local Abbreviation W := (World proxy Store).

Lemma framed_alone (s : str) :
  framed s ->
  decode_string (encode_string s) 0 = Return (s, Z.of_nat (length (encode_string s))).
Proof.
  intros F. specialize (F [] []). cbn [app length] in F.
  now rewrite app_nil_r in F.
Qed.

Lemma decode_payload_encoded (r : proxy) (s : str) :
  encode r = Return s -> codec_inverse r -> framed s ->
  decode_payload (encode_string s) = Return r.
Proof.
  intros E C F. unfold decode_payload. rewrite (framed_alone s F). now apply C.
Qed.

(** C3: with the gate closed, each of the eight operations returns at once
    and leaves the whole state as it was: the store, the dirty mark, the
    calls made on the store and the command queue. *)
Theorem gate_closed_is_noop (w : W) :
  experimental_sync w = false ->
  (forall proxies, send_data_creations proxies w = (w, Return tt)) /\
  (forall updates, send_data_updates updates w = (w, Return tt)) /\
  (forall removals, send_data_removals removals w = (w, Return tt)) /\
  (forall renames, send_data_renames renames w = (w, Return tt)) /\
  (forall buffer, build_data_create buffer w = (w, Return tt)) /\
  (forall buffer, build_data_update buffer w = (w, Return tt)) /\
  (forall buffer, build_data_remove buffer w = (w, Return tt)) /\
  (forall buffer, build_data_rename buffer w = (w, Return tt)).
Proof.
  intros G. repeat split; intros x.
  - rewrite creations_loop. now rewrite G.
  - rewrite updates_loop. now rewrite G.
  - rewrite removals_loop. now rewrite G.
  - rewrite renames_loop. now rewrite G.
  - unfold build_data_create, bind at 1, use_experimental_sync. now rewrite G.
  - unfold build_data_update, bind at 1, use_experimental_sync. now rewrite G.
  - unfold build_data_remove, bind at 1, use_experimental_sync. now rewrite G.
  - unfold build_data_rename, bind at 1, use_experimental_sync. now rewrite G.
Qed.

(** C9: every command queued by one of the four [send_data_*] operations
    has the kind of the operation and a reserved field equal to zero. *)
Theorem queued_commands_reserved_zero (w : W) :
  (forall proxies, exists cmds,
      client (fst (send_data_creations proxies w)) = client w ++ cmds /\
      Forall (fun c => cmd_type c = BLENDER_DATA_CREATE /\ cmd_reserved c = 0) cmds) /\
  (forall updates, exists cmds,
      client (fst (send_data_updates updates w)) = client w ++ cmds /\
      Forall (fun c => cmd_type c = BLENDER_DATA_UPDATE /\ cmd_reserved c = 0) cmds) /\
  (forall removals, exists cmds,
      client (fst (send_data_removals removals w)) = client w ++ cmds /\
      Forall (fun c => cmd_type c = BLENDER_DATA_REMOVE /\ cmd_reserved c = 0) cmds) /\
  (forall renames, exists cmds,
      client (fst (send_data_renames renames w)) = client w ++ cmds /\
      Forall (fun c => cmd_type c = BLENDER_DATA_RENAME /\ cmd_reserved c = 0) cmds).
Proof.
  repeat split; intros x.
  - rewrite creations_loop. destruct (experimental_sync w).
    + eexists; split; [reflexivity|]. apply Forall_map, Forall_forall. now intros.
    + exists []. now rewrite app_nil_r.
  - rewrite updates_loop. destruct (experimental_sync w).
    + eexists; split; [reflexivity|]. apply Forall_map, Forall_forall. now intros.
    + exists []. now rewrite app_nil_r.
  - rewrite removals_loop. destruct (experimental_sync w).
    + eexists; split; [reflexivity|]. apply Forall_map, Forall_forall.
      now intros [? ?] _.
    + exists []. now rewrite app_nil_r.
  - rewrite renames_loop. destruct (experimental_sync w).
    + eexists; split; [reflexivity|]. apply Forall_map, Forall_forall.
      now intros [[? ?] ?] _.
    + exists []. now rewrite app_nil_r.
Qed.

(** C2: a record whose encoding raises is skipped and the loop goes on:
    [send_data_updates] (and [send_data_creations]) returns normally and
    queues one command per record that encodes, in the changeset's order;
    for three records of which the second fails, it queues two UPDATE
    commands, for the first and the third. *)
Theorem encode_failure_skips_one_record (w : W) :
  experimental_sync w = true ->
  (forall updates,
      snd (send_data_updates updates w) = Return tt /\
      client (fst (send_data_updates updates w))
      = client w ++ map (record_command BLENDER_DATA_UPDATE) (encoded updates)) /\
  (forall proxies,
      snd (send_data_creations proxies w) = Return tt /\
      client (fst (send_data_creations proxies w))
      = client w ++ map (record_command BLENDER_DATA_CREATE) (encoded proxies)) /\
  (forall r1 r2 r3 s1 e s3,
      encode r1 = Return s1 -> encode r2 = Raise e -> encode r3 = Return s3 ->
      client (fst (send_data_updates [r1; r2; r3] w))
      = client w ++ [ mkCommand BLENDER_DATA_UPDATE (encode_string s1) 0;
                      mkCommand BLENDER_DATA_UPDATE (encode_string s3) 0 ]).
Proof.
  intros G. repeat split.
  - rewrite updates_loop. now rewrite G.
  - rewrite updates_loop. now rewrite G.
  - rewrite creations_loop. now rewrite G.
  - rewrite creations_loop. now rewrite G.
  - intros r1 r2 r3 s1 e s3 E1 E2 E3. rewrite updates_loop, G.
    unfold encoded. cbn [flat_map]. rewrite E1, E2, E3. reflexivity.
Qed.

(** C7: for a creation changeset [a, b, c] whose records all encode,
    [send_data_creations] queues exactly three CREATE commands, and the
    payloads, decoded in queue order, give [a], [b], [c]. *)
Theorem creations_keep_order (w : W) (a b c : proxy) (sa sb sc : str) :
  experimental_sync w = true ->
  encode a = Return sa -> encode b = Return sb -> encode c = Return sc ->
  codec_inverse a -> codec_inverse b -> codec_inverse c ->
  framed sa -> framed sb -> framed sc ->
  exists pa pb pc,
    client (fst (send_data_creations [a; b; c] w))
    = client w ++ [ mkCommand BLENDER_DATA_CREATE pa 0;
                    mkCommand BLENDER_DATA_CREATE pb 0;
                    mkCommand BLENDER_DATA_CREATE pc 0 ] /\
    decode_payload pa = Return a /\
    decode_payload pb = Return b /\
    decode_payload pc = Return c.
Proof.
  intros G Ea Eb Ec Ca Cb Cc Fa Fb Fc.
  exists (encode_string sa), (encode_string sb), (encode_string sc).
  rewrite creations_loop, G. unfold encoded. cbn [flat_map].
  rewrite Ea, Eb, Ec. repeat split; [| | ]; now apply decode_payload_encoded.
Qed.

(** C5: when [create_datablock] returns a rename changeset,
    [build_data_create] hands it to [send_data_renames]: the queue grows by
    exactly one RENAME command per entry, in order, each carrying the
    identifier and the new name the store returned, and by no other
    command. *)
Theorem collision_renames_are_sent (w : W) (buffer : bytes) s i id_proxy st d renames :
  experimental_sync w = true ->
  decode_string buffer 0 = Return (s, i) ->
  decode s = Return id_proxy ->
  create_datablock id_proxy (bpy_data_proxy w) = (st, Return (d, Some renames)) ->
  snd (build_data_create buffer w) = Return tt /\
  client (fst (build_data_create buffer w))
  = client w ++
    map (fun '(uuid, new_name, debug_info) =>
           mkCommand BLENDER_DATA_RENAME
             (encode_string uuid ++ encode_string new_name ++ encode_string debug_info) 0)
        renames.
Proof.
  intros G F D A. rewrite (create_accepted buffer w s i id_proxy st d (Some renames) G F D A).
  split; reflexivity.
Qed.

(** C6: the payload [send_data_removals] queues for [(uuid, debug_info)]
    decodes on the receiver to the same two strings, and
    [build_data_remove] on it makes exactly one [remove_datablock] call, with
    that [uuid]. *)
Theorem removal_round_trip (w w' : W) (uuid debug_info : str) :
  experimental_sync w = true ->
  experimental_sync w' = true ->
  framed uuid -> framed debug_info ->
  exists payload i j,
    client (fst (send_data_removals [(uuid, debug_info)] w))
    = client w ++ [mkCommand BLENDER_DATA_REMOVE payload 0] /\
    decode_string payload 0 = Return (uuid, i) /\
    decode_string payload i = Return (debug_info, j) /\
    calls (fst (build_data_remove payload w'))
    = calls w' ++ RemoveDatablock uuid ::
        match snd (remove_datablock uuid (bpy_data_proxy w')) with
        | Return _ => [SetDirty]
        | Raise _ => []
        end /\
    bpy_data_proxy (fst (build_data_remove payload w'))
    = fst (remove_datablock uuid (bpy_data_proxy w')) /\
    logged (fst (build_data_remove payload w'))
    = logged w' ++
      [mkLog INFO ("build_data_remove: " ++ uuid ++ " (" ++ debug_info ++ ")")%string].
Proof.
  intros G G' Fu Fd.
  set (payload := encode_string uuid ++ encode_string debug_info).
  assert (D1 : decode_string payload 0
               = Return (uuid, Z.of_nat (length (encode_string uuid)))).
  { specialize (Fu [] (encode_string debug_info)). exact Fu. }
  assert (D2 : decode_string payload (Z.of_nat (length (encode_string uuid)))
               = Return (debug_info, Z.of_nat (length (encode_string uuid))
                                     + Z.of_nat (length (encode_string debug_info)))).
  { specialize (Fd (encode_string uuid) []). now rewrite app_nil_r in Fd. }
  exists payload, (Z.of_nat (length (encode_string uuid))),
    (Z.of_nat (length (encode_string uuid)) + Z.of_nat (length (encode_string debug_info))).
  split; [rewrite removals_loop, G; reflexivity|].
  split; [exact D1|]. split; [exact D2|].
  destruct (remove_datablock uuid (bpy_data_proxy w')) as [st r] eqn:A.
  rewrite (remove_run payload w' uuid _ debug_info _ st r G' D1 D2 A).
  destruct r; cbn; repeat split; reflexivity.
Qed.

(** C10: in [build_data_create] and [build_data_update] the dirty mark is
    set once the record is decoded and before the store is called; when the
    store then raises, the handler still returns normally and the mark
    stays. *)
Theorem dirty_is_set_before_store_call (w : W) (buffer : bytes) s i r :
  experimental_sync w = true ->
  decode_string buffer 0 = Return (s, i) ->
  decode s = Return r ->
  (forall st o, create_datablock r (bpy_data_proxy w) = (st, o) ->
      dirty (fst (build_data_create buffer w)) = true /\
      calls (fst (build_data_create buffer w)) = calls w ++ [SetDirty; CreateDatablock r] /\
      bpy_data_proxy (fst (build_data_create buffer w)) = st /\
      forall e, o = Raise e -> snd (build_data_create buffer w) = Return tt) /\
  (forall st o, update_datablock r (bpy_data_proxy w) = (st, o) ->
      dirty (fst (build_data_update buffer w)) = true /\
      calls (fst (build_data_update buffer w)) = calls w ++ [SetDirty; UpdateDatablock r] /\
      bpy_data_proxy (fst (build_data_update buffer w)) = st /\
      forall e, o = Raise e -> snd (build_data_update buffer w) = Return tt).
Proof.
  intros G F D. split; intros st o A.
  - destruct o as [[d rc]|e].
    + rewrite (create_accepted buffer w s i r st d rc G F D A).
      repeat split.
    + rewrite (create_rejected buffer w s i r st e G F D A). repeat split.
  - destruct o as [[]|e].
    + rewrite (update_accepted buffer w s i r st G F D A).
      repeat split.
    + rewrite (update_rejected buffer w s i r st e G F D A). repeat split.
Qed.

(** C4, as the code has it: a store failure after a successful decode is
    contained for CREATE and UPDATE, whose handlers return normally, and is
    not contained for REMOVE and RENAME, whose handlers raise the store's
    exception to their caller; [set_dirty] is then not called and the dirty
    flag keeps the value it had. *)
Theorem store_failure_containment (w : W) :
  experimental_sync w = true ->
  (forall buffer s i r st e,
      decode_string buffer 0 = Return (s, i) -> decode s = Return r ->
      create_datablock r (bpy_data_proxy w) = (st, Raise e) ->
      snd (build_data_create buffer w) = Return tt) /\
  (forall buffer s i r st e,
      decode_string buffer 0 = Return (s, i) -> decode s = Return r ->
      update_datablock r (bpy_data_proxy w) = (st, Raise e) ->
      snd (build_data_update buffer w) = Return tt) /\
  (forall buffer uuid i debug_info j st e,
      decode_string buffer 0 = Return (uuid, i) ->
      decode_string buffer i = Return (debug_info, j) ->
      remove_datablock uuid (bpy_data_proxy w) = (st, Raise e) ->
      snd (build_data_remove buffer w) = Raise e /\
      dirty (fst (build_data_remove buffer w)) = dirty w /\
      calls (fst (build_data_remove buffer w)) = calls w ++ [RemoveDatablock uuid]) /\
  (forall buffer uuid i new_name j debug_info k st e,
      decode_string buffer 0 = Return (uuid, i) ->
      decode_string buffer i = Return (new_name, j) ->
      decode_string buffer j = Return (debug_info, k) ->
      rename_datablock uuid new_name (bpy_data_proxy w) = (st, Raise e) ->
      snd (build_data_rename buffer w) = Raise e /\
      dirty (fst (build_data_rename buffer w)) = dirty w /\
      calls (fst (build_data_rename buffer w))
      = calls w ++ [RenameDatablock uuid new_name]).
Proof.
  intros G. split; [|split; [|split]].
  - intros buffer s i r st e F D A.
    now rewrite (create_rejected buffer w s i r st e G F D A).
  - intros buffer s i r st e F D A.
    now rewrite (update_rejected buffer w s i r st e G F D A).
  - intros buffer uuid i debug_info j st e F1 F2 A.
    rewrite (remove_run buffer w uuid i debug_info j st (Raise e) G F1 F2 A).
    cbn. auto.
  - intros buffer uuid i new_name j debug_info k st e F1 F2 F3 A.
    rewrite (rename_run buffer w uuid i new_name j debug_info k st (Raise e) G F1 F2 F3 A).
    cbn. auto.
Qed.

(** C1, what the code does: when [codec.decode] raises, the [except] block
    reads the local name the failed statement was to bind, and the handler
    ends with [UnboundLocalError] raised to its caller, before the dump and
    the final record are logged. *)
Theorem undecodable_payload_raises (w : W) (buffer : bytes) s i e :
  experimental_sync w = true ->
  decode_string buffer 0 = Return (s, i) ->
  decode s = Raise e ->
  snd (build_data_update buffer w) = Raise (UnboundLocalError "delta") /\
  snd (build_data_create buffer w) = Raise (UnboundLocalError "id_proxy") /\
  logged (fst (build_data_update buffer w))
  = logged w ++ mkLog ERROR "Exception during build_data_update"
                :: map (mkLog ERROR) (format_exc e).
Proof.
  intros G F D.
  rewrite (update_undecodable buffer w s i e G F D).
  rewrite (create_undecodable buffer w s i e G F D).
  repeat split.
Qed.

(** C8, what the code does: when the store raises, the handler logs the
    first 200 characters of the buffer and then, for [buffer[-200:0]], the
    empty string: the end of the buffer is never logged. *)
Theorem handler_logs_no_tail (w : W) (buffer : bytes) s i r :
  experimental_sync w = true ->
  decode_string buffer 0 = Return (s, i) ->
  decode s = Return r ->
  (forall st e, create_datablock r (bpy_data_proxy w) = (st, Raise e) ->
      logged (fst (build_data_create buffer w))
      = logged w ++
        [ mkLog INFO ("build_data_create: " ++ repr r)%string;
          mkLog ERROR "Exception during build_data_create" ] ++
        map (mkLog ERROR) (format_exc e) ++
        [ mkLog ERROR ("During processing of buffer for " ++ repr r)%string;
          mkLog ERROR (string_of_list_ascii (firstn 200 (list_ascii_of_string s)));
          mkLog ERROR "...";
          mkLog ERROR EmptyString;
          mkLog ERROR "ignored" ]) /\
  (forall st e, update_datablock r (bpy_data_proxy w) = (st, Raise e) ->
      logged (fst (build_data_update buffer w))
      = logged w ++
        [ mkLog INFO ("build_data_update: " ++ repr r)%string;
          mkLog ERROR "Exception during build_data_update" ] ++
        map (mkLog ERROR) (format_exc e) ++
        [ mkLog ERROR ("During processing of buffer for " ++ repr r)%string;
          mkLog ERROR (string_of_list_ascii (firstn 200 (list_ascii_of_string s)));
          mkLog ERROR "...";
          mkLog ERROR EmptyString;
          mkLog ERROR "ignored" ]).
Proof.
  intros G F D. split; intros st e A.
  - rewrite (create_rejected buffer w s i r st e G F D A).
    unfold handler_log. rewrite str_slice_stop_0, str_slice_head. reflexivity.
  - rewrite (update_rejected buffer w s i r st e G F D A).
    unfold handler_log. rewrite str_slice_stop_0, str_slice_head. reflexivity.
Qed.

End Properties.

(** ** The properties on the concrete peer *)

Section Instances.

Import Demo.

Lemma gate_closed_is_noop_witness :
  experimental_sync world_off = false /\
  sd_removals [("uuid-1", "obj A")] world_off = (world_off, Return tt) /\
  bd_create collision_payload world_off = (world_off, Return tt).
Proof.
  split; [reflexivity|].
  destruct (gate_closed_is_noop world_off eq_refl) as (_ & _ & H3 & _ & H5 & _).
  split; [apply H3 | apply H5].
Defined.

Lemma encode_failure_skips_one_record_witness :
  experimental_sync world0 = true /\
  client (fst (sd_updates [("u1", "A"); (EmptyString, "B"); ("u3", "C")] world0))
  = [ mkCommand BLENDER_DATA_UPDATE (encode_string "u1|A") 0;
      mkCommand BLENDER_DATA_UPDATE (encode_string "u3|C") 0 ].
Proof.
  split; [reflexivity|].
  destruct (encode_failure_skips_one_record world0 eq_refl) as (_ & _ & H).
  exact (H ("u1", "A") (EmptyString, "B") ("u3", "C") _ _ _ eq_refl eq_refl eq_refl).
Defined.

Lemma creations_keep_order_witness :
  exists pa pb pc,
    client (fst (sd_creations [("u1", "A"); ("u2", "B"); ("u3", "C")] world0))
    = [ mkCommand BLENDER_DATA_CREATE pa 0;
        mkCommand BLENDER_DATA_CREATE pb 0;
        mkCommand BLENDER_DATA_CREATE pc 0 ] /\
    decode_payload pa = Return ("u1", "A") /\
    decode_payload pb = Return ("u2", "B") /\
    decode_payload pc = Return ("u3", "C").
Proof.
  apply (creations_keep_order world0 ("u1", "A") ("u2", "B") ("u3", "C")
           "u1|A" "u2|B" "u3|C");
    try reflexivity;
    try apply demo_codec_inverse;
    apply demo_framed; vm_compute; reflexivity.
Defined.

Lemma collision_renames_are_sent_witness :
  snd (bd_create collision_payload world0) = Return tt /\
  client (fst (bd_create collision_payload world0))
  = [ mkCommand BLENDER_DATA_RENAME
        (encode_string "uuid-9" ++ encode_string "Cube.001" ++ encode_string "Cube") 0 ].
Proof.
  apply (collision_renames_are_sent world0 collision_payload "uuid-9|Cube" 15
           ("uuid-9", "Cube") [("uuid-0", "Cube"); ("uuid-9", "Cube.001")] "uuid-9"
           [("uuid-9", "Cube.001", "Cube")]);
    reflexivity.
Defined.

Lemma removal_round_trip_witness :
  exists payload i j,
    client (fst (sd_removals [("uuid-1", "obj A")] world0))
    = [mkCommand BLENDER_DATA_REMOVE payload 0] /\
    decode_string payload 0 = Return ("uuid-1", i) /\
    decode_string payload i = Return ("obj A", j) /\
    calls (fst (bd_remove payload world1)) = [RemoveDatablock "uuid-1"; SetDirty].
Proof.
  destruct (removal_round_trip world0 world1 "uuid-1" "obj A" eq_refl eq_refl)
    as (payload & i & j & H1 & H2 & H3 & H4 & _).
  - apply demo_framed; vm_compute; reflexivity.
  - apply demo_framed; vm_compute; reflexivity.
  - exists payload, i, j.
    split; [exact H1 | split; [exact H2 | split; [exact H3 | exact H4]]].
Defined.

Lemma dirty_is_set_before_store_call_witness :
  dirty (fst (bd_update ghost_update_payload world0)) = true /\
  calls (fst (bd_update ghost_update_payload world0))
  = [SetDirty; UpdateDatablock ("ghost", "Name")] /\
  snd (bd_update ghost_update_payload world0) = Return tt.
Proof.
  destruct (dirty_is_set_before_store_call world0 ghost_update_payload
              "ghost|Name" 14 ("ghost", "Name") ltac:(reflexivity) ltac:(reflexivity) ltac:(reflexivity)) as (_ & H).
  destruct (H [("uuid-0", "Cube")] (Raise (Error "KeyError" "ghost")) ltac:(reflexivity))
    as (Hd & Hc & _ & He).
  split; [exact Hd | split; [exact Hc | exact (He _ ltac:(reflexivity))]].
Defined.

Lemma store_failure_containment_witness :
  snd (bd_update ghost_update_payload world0) = Return tt /\
  snd (bd_remove ghost_removal_payload world0) = Raise (Error "KeyError" "ghost") /\
  dirty (fst (bd_remove ghost_removal_payload world0)) = false /\
  calls (fst (bd_remove ghost_removal_payload world0)) = [RemoveDatablock "ghost"].
Proof.
  destruct (store_failure_containment world0 ltac:(reflexivity)) as (_ & Hu & Hr & _).
  split.
  - exact (Hu ghost_update_payload "ghost|Name" 14 ("ghost", "Name")
              [("uuid-0", "Cube")] (Error "KeyError" "ghost")
              ltac:(reflexivity) ltac:(reflexivity) ltac:(reflexivity)).
  - exact (Hr ghost_removal_payload "ghost" 9 "obj" 16
              [("uuid-0", "Cube")] (Error "KeyError" "ghost")
              ltac:(reflexivity) ltac:(reflexivity) ltac:(reflexivity)).
Defined.

(** C4, as stated, fails: the removal payload decodes, the store rejects the
    identifier, and [build_data_remove] raises the store's exception to its
    caller. *)
Lemma store_failure_escapes_remove :
  decode_string ghost_removal_payload 0 = Return ("ghost", 9) /\
  decode_string ghost_removal_payload 9 = Return ("obj", 16) /\
  snd (remove_datablock "ghost" (bpy_data_proxy world0)) = Raise (Error "KeyError" "ghost") /\
  snd (bd_remove ghost_removal_payload world0) = Raise (Error "KeyError" "ghost") /\
  snd (bd_remove ghost_removal_payload world0) <> Return tt.
Proof. repeat split; try reflexivity. discriminate. Qed.

Lemma undecodable_payload_raises_witness :
  snd (bd_update garbage_payload world0) = Raise (UnboundLocalError "delta") /\
  snd (bd_create garbage_payload world0) = Raise (UnboundLocalError "id_proxy").
Proof.
  destruct (undecodable_payload_raises world0 garbage_payload "garbage" 11
              (Error "JSONDecodeError" "Expecting value") ltac:(reflexivity) ltac:(reflexivity) ltac:(reflexivity))
    as (Hu & Hc & _).
  split; [exact Hu | exact Hc].
Defined.

Lemma handler_logs_no_tail_witness :
  logged (fst (bd_update ghost_update_payload world0))
  = [ mkLog INFO "build_data_update: Name ghost";
      mkLog ERROR "Exception during build_data_update";
      mkLog ERROR "Traceback (most recent call last):";
      mkLog ERROR "KeyError: ghost";
      mkLog ERROR "During processing of buffer for Name ghost";
      mkLog ERROR "ghost|Name";
      mkLog ERROR "...";
      mkLog ERROR EmptyString;
      mkLog ERROR "ignored" ].
Proof.
  destruct (handler_logs_no_tail world0 ghost_update_payload "ghost|Name" 14
              ("ghost", "Name") ltac:(reflexivity) ltac:(reflexivity) ltac:(reflexivity)) as (_ & H).
  exact (H [("uuid-0", "Cube")] (Error "KeyError" "ghost") ltac:(reflexivity)).
Defined.

End Instances.

(** ** Further properties of the module *)

Section Frames.

Context {proxy datablock Store : Type}.
Context {codec : Codec proxy} {framer : WireFramer}
        {data_proxy : BpyDataProxy proxy datablock Store}
        {diag : Diagnostics proxy}.

Local Abbreviation W := (World proxy Store).

Ltac open_gate G :=
  unfold bind at 1, use_experimental_sync; rewrite G; cbn [negb].

Ltac read_field F :=
  unfold bind at 1, lift at 1; rewrite F.

(** *** A payload the framer cannot read *)

Lemma create_unframed (buffer : bytes) (w : W) e :
  experimental_sync w = true -> decode_string buffer 0 = Raise e ->
  build_data_create buffer w = (w, Raise e).
Proof.
  intros G F. unfold build_data_create. open_gate G. read_field F. reflexivity.
Qed.

Lemma update_unframed (buffer : bytes) (w : W) e :
  experimental_sync w = true -> decode_string buffer 0 = Raise e ->
  build_data_update buffer w = (w, Raise e).
Proof.
  intros G F. unfold build_data_update. open_gate G. read_field F. reflexivity.
Qed.

Lemma remove_unframed (buffer : bytes) (w : W) e :
  experimental_sync w = true ->
  decode_string buffer 0 = Raise e \/
  (exists uuid i, decode_string buffer 0 = Return (uuid, i) /\
                  decode_string buffer i = Raise e) ->
  build_data_remove buffer w = (w, Raise e).
Proof.
  intros G [F | (uuid & i & F1 & F2)]; unfold build_data_remove; open_gate G.
  - read_field F. reflexivity.
  - read_field F1. read_field F2. reflexivity.
Qed.

Lemma rename_unframed (buffer : bytes) (w : W) e :
  experimental_sync w = true ->
  decode_string buffer 0 = Raise e \/
  (exists uuid i, decode_string buffer 0 = Return (uuid, i) /\
                  (decode_string buffer i = Raise e \/
                   exists new_name j, decode_string buffer i = Return (new_name, j) /\
                                      decode_string buffer j = Raise e)) ->
  build_data_rename buffer w = (w, Raise e).
Proof.
  intros G [F | (uuid & i & F1 & [F2 | (new_name & j & F2 & F3)])];
    unfold build_data_rename; open_gate G.
  - read_field F. reflexivity.
  - read_field F1. read_field F2. reflexivity.
  - read_field F1. read_field F2. read_field F3. reflexivity.
Qed.

Lemma gate_closed_build (w : W) :
  experimental_sync w = false ->
  forall buffer,
    build_data_create buffer w = (w, Return tt) /\
    build_data_update buffer w = (w, Return tt) /\
    build_data_remove buffer w = (w, Return tt) /\
    build_data_rename buffer w = (w, Return tt).
Proof.
  intros G buffer. repeat split.
  - unfold build_data_create, bind at 1, use_experimental_sync. now rewrite G.
  - unfold build_data_update, bind at 1, use_experimental_sync. now rewrite G.
  - unfold build_data_remove, bind at 1, use_experimental_sync. now rewrite G.
  - unfold build_data_rename, bind at 1, use_experimental_sync. now rewrite G.
Qed.

(** X3: the string fields of a payload are read outside any [try]: when
    [decode_string] raises, on the first field or on a later one, each
    handler raises the same exception to its caller and has done nothing:
    no record logged, no store call, no dirty mark. *)
Theorem framing_failure_propagates (w : W) (buffer : bytes) (e : exception) :
  experimental_sync w = true ->
  (decode_string buffer 0 = Raise e ->
     build_data_create buffer w = (w, Raise e) /\
     build_data_update buffer w = (w, Raise e) /\
     build_data_remove buffer w = (w, Raise e) /\
     build_data_rename buffer w = (w, Raise e)) /\
  (forall uuid i,
     decode_string buffer 0 = Return (uuid, i) -> decode_string buffer i = Raise e ->
     build_data_remove buffer w = (w, Raise e) /\
     build_data_rename buffer w = (w, Raise e)) /\
  (forall uuid i new_name j,
     decode_string buffer 0 = Return (uuid, i) ->
     decode_string buffer i = Return (new_name, j) ->
     decode_string buffer j = Raise e ->
     build_data_rename buffer w = (w, Raise e)).
Proof.
  intros G. split; [|split].
  - intros F. split; [|split; [|split]].
    + now apply create_unframed.
    + now apply update_unframed.
    + apply remove_unframed; auto.
    + apply rename_unframed; auto.
  - intros uuid i F1 F2. split.
    + apply remove_unframed; eauto.
    + apply rename_unframed; eauto 6.
  - intros uuid i new_name j F1 F2 F3. apply rename_unframed; eauto 10.
Qed.

(** *** The translators *)

Lemma encoded_app (xs ys : list proxy) : encoded (xs ++ ys) = encoded xs ++ encoded ys.
Proof. unfold encoded. apply flat_map_app. Qed.

(** X4: a translator never raises, whatever the changeset and whatever the
    [Codec] does, and it touches neither the store, nor the dirty mark, nor
    the gate: it makes no call on the store side. *)
Theorem translators_return_and_leave_store (w : W) :
  (forall proxies,
      let r := send_data_creations proxies w in
      snd r = Return tt /\ bpy_data_proxy (fst r) = bpy_data_proxy w /\
      dirty (fst r) = dirty w /\ calls (fst r) = calls w /\
      experimental_sync (fst r) = experimental_sync w) /\
  (forall updates,
      let r := send_data_updates updates w in
      snd r = Return tt /\ bpy_data_proxy (fst r) = bpy_data_proxy w /\
      dirty (fst r) = dirty w /\ calls (fst r) = calls w /\
      experimental_sync (fst r) = experimental_sync w) /\
  (forall removals,
      let r := send_data_removals removals w in
      snd r = Return tt /\ bpy_data_proxy (fst r) = bpy_data_proxy w /\
      dirty (fst r) = dirty w /\ calls (fst r) = calls w /\
      experimental_sync (fst r) = experimental_sync w) /\
  (forall renames,
      let r := send_data_renames renames w in
      snd r = Return tt /\ bpy_data_proxy (fst r) = bpy_data_proxy w /\
      dirty (fst r) = dirty w /\ calls (fst r) = calls w /\
      experimental_sync (fst r) = experimental_sync w).
Proof.
  split; [|split; [|split]]; intros x; cbv zeta.
  - rewrite creations_loop. destruct (experimental_sync w) eqn:G; cbn; auto.
  - rewrite updates_loop. destruct (experimental_sync w) eqn:G; cbn; auto.
  - rewrite removals_loop. destruct (experimental_sync w) eqn:G; cbn; auto.
  - rewrite renames_loop. destruct (experimental_sync w) eqn:G; cbn; auto.
Qed.

(** X5: sending a changeset in two batches, one call after the other, ends
    in the same state as sending it whole: the same commands in the same
    order and the same log. *)
Theorem batches_compose (w : W) :
  (forall xs ys, send_data_creations (xs ++ ys) w
                 = send_data_creations ys (fst (send_data_creations xs w))) /\
  (forall xs ys, send_data_updates (xs ++ ys) w
                 = send_data_updates ys (fst (send_data_updates xs w))) /\
  (forall xs ys, send_data_removals (xs ++ ys) w
                 = send_data_removals ys (fst (send_data_removals xs w))) /\
  (forall xs ys, send_data_renames (xs ++ ys) w
                 = send_data_renames ys (fst (send_data_renames xs w))).
Proof.
  split; [|split; [|split]]; intros xs ys.
  - rewrite !creations_loop. destruct (experimental_sync w) eqn:G; cbn [fst].
    + cbn [sent experimental_sync]. rewrite G, sent_sent.
      now rewrite encoded_app, map_app, flat_map_app.
    + now rewrite G.
  - rewrite !updates_loop. destruct (experimental_sync w) eqn:G; cbn [fst].
    + cbn [sent experimental_sync]. rewrite G, sent_sent.
      now rewrite encoded_app, map_app, flat_map_app.
    + now rewrite G.
  - rewrite !removals_loop. destruct (experimental_sync w) eqn:G; cbn [fst].
    + cbn [sent experimental_sync]. rewrite G, sent_sent.
      now rewrite !map_app.
    + now rewrite G.
  - rewrite !renames_loop. destruct (experimental_sync w) eqn:G; cbn [fst].
    + cbn [sent experimental_sync]. rewrite G, sent_sent.
      now rewrite !map_app.
    + now rewrite G.
Qed.

(** X12: [send_data_removals] and [send_data_renames] skip no entry: the
    queue grows by exactly one command per entry, in the changeset's order,
    whose payload is the entry's strings framed one after the other. *)
Theorem removals_and_renames_skip_nothing (w : W) :
  experimental_sync w = true ->
  (forall removals,
      client (fst (send_data_removals removals w))
      = client w ++
        map (fun '(uuid, debug_info) =>
               mkCommand BLENDER_DATA_REMOVE
                 (encode_string uuid ++ encode_string debug_info) 0) removals) /\
  (forall renames,
      client (fst (send_data_renames renames w))
      = client w ++
        map (fun '(uuid, new_name, debug_info) =>
               mkCommand BLENDER_DATA_RENAME
                 (encode_string uuid ++ encode_string new_name
                  ++ encode_string debug_info) 0) renames).
Proof.
  intros G. split; intros x.
  - rewrite removals_loop, G. reflexivity.
  - rewrite renames_loop, G. reflexivity.
Qed.

(** X11: every encoding failure leaves its trace: for each record of the
    changeset whose encoding raises, the log holds an error record naming
    the record and one error record per line of the traceback; and for
    every record, failing or not, the log holds its info record. *)
Theorem encode_failures_are_logged (w : W) (records : list proxy) (r : proxy) :
  experimental_sync w = true ->
  In r records ->
  (In (mkLog INFO ("send_data_update " ++ repr r)%string)
      (logged (fst (send_data_updates records w))) /\
   In (mkLog INFO ("send_data_create " ++ repr r)%string)
      (logged (fst (send_data_creations records w)))) /\
  (forall e, encode r = Raise e ->
     In (mkLog ERROR ("send_data_update: encode exception for " ++ repr r)%string)
        (logged (fst (send_data_updates records w))) /\
     In (mkLog ERROR ("send_data_create: encode exception for " ++ repr r)%string)
        (logged (fst (send_data_creations records w))) /\
     forall line, In line (format_exc e) ->
        In (mkLog ERROR line) (logged (fst (send_data_updates records w))) /\
        In (mkLog ERROR line) (logged (fst (send_data_creations records w)))).
Proof.
  intros G I. rewrite updates_loop, creations_loop, G. cbn [fst sent logged].
  assert (S : forall tag rec, In rec (send_log tag r) ->
                In rec (logged w ++ flat_map (send_log tag) records)).
  { intros tag rec H. apply in_or_app. right. apply in_flat_map. eauto. }
  split; [split|].
  - apply S. now left.
  - apply S. now left.
  - intros e E. split; [|split].
    + apply S. unfold send_log. rewrite E. right. now left.
    + apply S. unfold send_log. rewrite E. right. now left.
    + intros line L. split; apply S; unfold send_log; rewrite E;
        right; right; now apply in_map.
Qed.

(** *** The handlers *)

Lemma update_queue (buffer : bytes) (w : W) :
  client (fst (build_data_update buffer w)) = client w.
Proof.
  destruct (experimental_sync w) eqn:G.
  2: { now rewrite (proj1 (proj2 (gate_closed_build w G buffer))). }
  destruct (decode_string buffer 0) as [[s i]|e] eqn:F.
  2: { now rewrite (update_unframed buffer w e G F). }
  destruct (decode s) as [r|e] eqn:D.
  2: { rewrite (update_undecodable buffer w s i e G F D). cbn. apply app_nil_r. }
  destruct (update_datablock r (bpy_data_proxy w)) as [st [[]|e]] eqn:A.
  - rewrite (update_accepted buffer w s i r st G F D A). cbn. apply app_nil_r.
  - rewrite (update_rejected buffer w s i r st e G F D A). cbn. apply app_nil_r.
Qed.

Lemma remove_queue (buffer : bytes) (w : W) :
  client (fst (build_data_remove buffer w)) = client w.
Proof.
  destruct (experimental_sync w) eqn:G.
  2: { now rewrite (proj1 (proj2 (proj2 (gate_closed_build w G buffer)))). }
  destruct (decode_string buffer 0) as [[uuid i]|e] eqn:F1.
  2: { rewrite (remove_unframed buffer w e G); auto. }
  destruct (decode_string buffer i) as [[debug_info j]|e] eqn:F2.
  2: { rewrite (remove_unframed buffer w e G); eauto. }
  destruct (remove_datablock uuid (bpy_data_proxy w)) as [st r] eqn:A.
  rewrite (remove_run buffer w uuid i debug_info j st r G F1 F2 A).
  destruct r; cbn; apply app_nil_r.
Qed.

Lemma rename_queue (buffer : bytes) (w : W) :
  client (fst (build_data_rename buffer w)) = client w.
Proof.
  destruct (experimental_sync w) eqn:G.
  2: { now rewrite (proj2 (proj2 (proj2 (gate_closed_build w G buffer)))). }
  destruct (decode_string buffer 0) as [[uuid i]|e] eqn:F1.
  2: { rewrite (rename_unframed buffer w e G); auto. }
  destruct (decode_string buffer i) as [[new_name j]|e] eqn:F2.
  2: { rewrite (rename_unframed buffer w e G); eauto 6. }
  destruct (decode_string buffer j) as [[debug_info k]|e] eqn:F3.
  2: { rewrite (rename_unframed buffer w e G); eauto 10. }
  destruct (rename_datablock uuid new_name (bpy_data_proxy w)) as [st r] eqn:A.
  rewrite (rename_run buffer w uuid i new_name j debug_info k st r G F1 F2 F3 A).
  destruct r; cbn; apply app_nil_r.
Qed.

Lemma create_queue (buffer : bytes) (w : W) :
  exists renames,
    client (fst (build_data_create buffer w)) = client w ++ map rename_command renames.
Proof.
  destruct (experimental_sync w) eqn:G.
  2: { exists []. rewrite (proj1 (gate_closed_build w G buffer)). cbn.
       now rewrite app_nil_r. }
  destruct (decode_string buffer 0) as [[s i]|e] eqn:F.
  2: { exists []. rewrite (create_unframed buffer w e G F). cbn. now rewrite app_nil_r. }
  destruct (decode s) as [r|e] eqn:D.
  2: { exists []. now rewrite (create_undecodable buffer w s i e G F D). }
  destruct (create_datablock r (bpy_data_proxy w)) as [st [[d rc]|e]] eqn:A.
  - exists (renames_of rc). now rewrite (create_accepted buffer w s i r st d rc G F D A).
  - exists []. now rewrite (create_rejected buffer w s i r st e G F D A).
Qed.

(** X7: for every payload and every state, whatever the collaborators do,
    [build_data_update], [build_data_remove] and [build_data_rename] queue no
    command, and [build_data_create] queues nothing but RENAME commands with
    a zero third field. *)
Theorem handlers_queue_only_renames (w : W) (buffer : bytes) :
  client (fst (build_data_update buffer w)) = client w /\
  client (fst (build_data_remove buffer w)) = client w /\
  client (fst (build_data_rename buffer w)) = client w /\
  exists cmds,
    client (fst (build_data_create buffer w)) = client w ++ cmds /\
    Forall (fun c => cmd_type c = BLENDER_DATA_RENAME /\ cmd_reserved c = 0) cmds.
Proof.
  split; [apply update_queue|]. split; [apply remove_queue|].
  split; [apply rename_queue|].
  destruct (create_queue buffer w) as [renames H].
  exists (map rename_command renames). split; [exact H|].
  apply Forall_map, Forall_forall. now intros [[? ?] ?] _.
Qed.

(** X6: when [create_datablock] returns no rename changeset, or an empty
    one, [build_data_create] queues nothing and logs only its info
    record. *)
Theorem no_collision_sends_nothing (w : W) (buffer : bytes) s i id_proxy st d rc :
  experimental_sync w = true ->
  decode_string buffer 0 = Return (s, i) ->
  decode s = Return id_proxy ->
  create_datablock id_proxy (bpy_data_proxy w) = (st, Return (d, rc)) ->
  rc = None \/ rc = Some [] ->
  snd (build_data_create buffer w) = Return tt /\
  client (fst (build_data_create buffer w)) = client w /\
  logged (fst (build_data_create buffer w))
  = logged w ++ [mkLog INFO ("build_data_create: " ++ repr id_proxy)%string].
Proof.
  intros G F D A E. rewrite (create_accepted buffer w s i id_proxy st d rc G F D A).
  destruct E as [-> | ->]; cbn; now rewrite app_nil_r.
Qed.

(** X8: in [build_data_remove] and [build_data_rename] the dirty mark comes
    after the store call: it is set when the call returns, and when the call
    raises the mark is left as it was and [set_dirty] is not called. *)
Theorem dirty_follows_store_success (w : W) (buffer : bytes) :
  experimental_sync w = true ->
  (forall uuid i debug_info j st o,
      decode_string buffer 0 = Return (uuid, i) ->
      decode_string buffer i = Return (debug_info, j) ->
      remove_datablock uuid (bpy_data_proxy w) = (st, o) ->
      let w' := fst (build_data_remove buffer w) in
      bpy_data_proxy w' = st /\
      match o with
      | Return _ => dirty w' = true /\ calls w' = calls w ++ [RemoveDatablock uuid; SetDirty]
      | Raise _ => dirty w' = dirty w /\ calls w' = calls w ++ [RemoveDatablock uuid]
      end) /\
  (forall uuid i new_name j debug_info k st o,
      decode_string buffer 0 = Return (uuid, i) ->
      decode_string buffer i = Return (new_name, j) ->
      decode_string buffer j = Return (debug_info, k) ->
      rename_datablock uuid new_name (bpy_data_proxy w) = (st, o) ->
      let w' := fst (build_data_rename buffer w) in
      bpy_data_proxy w' = st /\
      match o with
      | Return _ =>
          dirty w' = true /\ calls w' = calls w ++ [RenameDatablock uuid new_name; SetDirty]
      | Raise _ => dirty w' = dirty w /\ calls w' = calls w ++ [RenameDatablock uuid new_name]
      end).
Proof.
  intros G. split.
  - intros uuid i debug_info j st o F1 F2 A. cbv zeta.
    rewrite (remove_run buffer w uuid i debug_info j st o G F1 F2 A).
    destruct o; cbn; auto.
  - intros uuid i new_name j debug_info k st o F1 F2 F3 A. cbv zeta.
    rewrite (rename_run buffer w uuid i new_name j debug_info k st o G F1 F2 F3 A).
    destruct o; cbn; auto.
Qed.

(** X9: a payload the [Codec] cannot decode has no effect on the store side:
    no store method is called, [set_dirty] is not called, and nothing is
    queued; only the log grows. *)
Theorem undecodable_payload_leaves_store (w : W) (buffer : bytes) s i e :
  experimental_sync w = true ->
  decode_string buffer 0 = Return (s, i) ->
  decode s = Raise e ->
  (let w' := fst (build_data_create buffer w) in
   bpy_data_proxy w' = bpy_data_proxy w /\ dirty w' = dirty w /\
   calls w' = calls w /\ client w' = client w) /\
  (let w' := fst (build_data_update buffer w) in
   bpy_data_proxy w' = bpy_data_proxy w /\ dirty w' = dirty w /\
   calls w' = calls w /\ client w' = client w).
Proof.
  intros G F D. cbv zeta.
  rewrite (create_undecodable buffer w s i e G F D).
  rewrite (update_undecodable buffer w s i e G F D).
  cbn. rewrite app_nil_r. auto 10.
Qed.

(** *** From one peer to another *)

Lemma create_store_side (buffer : bytes) (w : W) s i r :
  experimental_sync w = true ->
  decode_string buffer 0 = Return (s, i) ->
  decode s = Return r ->
  calls (fst (build_data_create buffer w)) = calls w ++ [SetDirty; CreateDatablock r] /\
  bpy_data_proxy (fst (build_data_create buffer w))
  = fst (create_datablock r (bpy_data_proxy w)).
Proof.
  intros G F D.
  destruct (create_datablock r (bpy_data_proxy w)) as [st [[d rc]|e]] eqn:A.
  - now rewrite (create_accepted buffer w s i r st d rc G F D A).
  - now rewrite (create_rejected buffer w s i r st e G F D A).
Qed.

Lemma update_store_side (buffer : bytes) (w : W) s i r :
  experimental_sync w = true ->
  decode_string buffer 0 = Return (s, i) ->
  decode s = Return r ->
  calls (fst (build_data_update buffer w)) = calls w ++ [SetDirty; UpdateDatablock r] /\
  bpy_data_proxy (fst (build_data_update buffer w))
  = fst (update_datablock r (bpy_data_proxy w)).
Proof.
  intros G F D.
  destruct (update_datablock r (bpy_data_proxy w)) as [st [[]|e]] eqn:A.
  - now rewrite (update_accepted buffer w s i r st G F D A).
  - now rewrite (update_rejected buffer w s i r st e G F D A).
Qed.

(** X2: a record sent by [send_data_creations] reaches the store of the
    receiving peer: [build_data_create] on the queued payload calls
    [create_datablock] once, with the record that was sent, and the store
    moves as that call says; likewise [send_data_updates] and
    [build_data_update] with [update_datablock]. *)
Theorem sent_record_reaches_store (w w' : W) (r : proxy) (s : str) :
  experimental_sync w = true ->
  experimental_sync w' = true ->
  encode r = Return s -> codec_inverse r -> framed s ->
  (exists payload,
      client (fst (send_data_creations [r] w))
      = client w ++ [mkCommand BLENDER_DATA_CREATE payload 0] /\
      calls (fst (build_data_create payload w'))
      = calls w' ++ [SetDirty; CreateDatablock r] /\
      bpy_data_proxy (fst (build_data_create payload w'))
      = fst (create_datablock r (bpy_data_proxy w'))) /\
  (exists payload,
      client (fst (send_data_updates [r] w))
      = client w ++ [mkCommand BLENDER_DATA_UPDATE payload 0] /\
      calls (fst (build_data_update payload w'))
      = calls w' ++ [SetDirty; UpdateDatablock r] /\
      bpy_data_proxy (fst (build_data_update payload w'))
      = fst (update_datablock r (bpy_data_proxy w'))).
Proof.
  intros G G' E C F.
  pose proof (framed_alone s F) as F0. pose proof (C s E) as D.
  split; exists (encode_string s); split.
  - rewrite creations_loop, G. unfold encoded. cbn [flat_map]. now rewrite E.
  - exact (create_store_side (encode_string s) w' s _ r G' F0 D).
  - rewrite updates_loop, G. unfold encoded. cbn [flat_map]. now rewrite E.
  - exact (update_store_side (encode_string s) w' s _ r G' F0 D).
Qed.


Lemma decode_payloads_of_encoded (records : list proxy) :
  Forall (fun r => exists s, encode r = Return s /\ framed s /\ codec_inverse r) records ->
  map decode_payload (map encode_string (encoded records)) = map Return records.
Proof.
  induction 1 as [|r rs (s & E & F & C) _ IH]; [reflexivity|].
  unfold encoded in *. cbn [flat_map map]. rewrite E. cbn [app map].
  now rewrite IH, (decode_payload_encoded r s E C F).
Qed.

(** X13: order is kept for a changeset of any length: when every record
    encodes, [send_data_creations] (and [send_data_updates]) queues one
    command per record, and the payloads, decoded in queue order, give the
    records in the changeset's order. *)
Theorem changeset_order_is_kept (w : W) (records : list proxy) :
  experimental_sync w = true ->
  Forall (fun r => exists s, encode r = Return s /\ framed s /\ codec_inverse r) records ->
  exists payloads,
    client (fst (send_data_creations records w))
    = client w ++ map (fun p => mkCommand BLENDER_DATA_CREATE p 0) payloads /\
    client (fst (send_data_updates records w))
    = client w ++ map (fun p => mkCommand BLENDER_DATA_UPDATE p 0) payloads /\
    length payloads = length records /\
    map decode_payload payloads = map Return records.
Proof.
  intros G H. exists (map encode_string (encoded records)).
  rewrite creations_loop, updates_loop, G. cbn [fst sent client].
  unfold record_command.
  split; [now rewrite map_map|]. split; [now rewrite map_map|].
  pose proof (decode_payloads_of_encoded records H) as D.
  split; [|exact D].
  apply (f_equal (@length _)) in D. rewrite !length_map in D.
  rewrite length_map. exact D.
Qed.

End Frames.

(** *** The dump of the buffer *)





Section HeadDump.

Context {proxy datablock Store : Type}.
Context {codec : Codec proxy} {framer : WireFramer}
        {data_proxy : BpyDataProxy proxy datablock Store}
        {diag : Diagnostics proxy}.

Local Abbreviation W := (World proxy Store).


End HeadDump.

(** ** The further properties on the concrete peer *)

Section MoreInstances.

Import Demo.

Lemma framing_failure_propagates_witness :
  build_data_update (framer:=strict_framer) malformed_payload world0
  = (world0, Raise (Error "UnicodeDecodeError" "invalid start byte")) /\
  build_data_remove (framer:=strict_framer) half_malformed_payload world1
  = (world1, Raise (Error "UnicodeDecodeError" "invalid start byte")).
Proof.
  split.
  - destruct (framing_failure_propagates (framer:=strict_framer) world0 malformed_payload
                (Error "UnicodeDecodeError" "invalid start byte") ltac:(reflexivity))
      as (H & _).
    destruct (H ltac:(reflexivity)) as (_ & Hu & _). exact Hu.
  - destruct (framing_failure_propagates (framer:=strict_framer) world1
                half_malformed_payload
                (Error "UnicodeDecodeError" "invalid start byte") ltac:(reflexivity))
      as (_ & H & _).
    destruct (H "uuid-1" 10 ltac:(reflexivity) ltac:(reflexivity)) as (Hr & _).
    exact Hr.
Defined.

Lemma removals_and_renames_skip_nothing_witness :
  client (fst (sd_removals [("uuid-1", "obj A"); ("uuid-2", "obj B")] world0))
  = [ mkCommand BLENDER_DATA_REMOVE (encode_string "uuid-1" ++ encode_string "obj A") 0;
      mkCommand BLENDER_DATA_REMOVE (encode_string "uuid-2" ++ encode_string "obj B") 0 ].
Proof.
  destruct (removals_and_renames_skip_nothing world0 ltac:(reflexivity)) as (H & _).
  exact (H [("uuid-1", "obj A"); ("uuid-2", "obj B")]).
Defined.

Lemma encode_failures_are_logged_witness :
  In (mkLog ERROR "send_data_update: encode exception for B ")
     (logged (fst (sd_updates [("u1", "A"); (EmptyString, "B")] world0))) /\
  In (mkLog ERROR "TypeError: Object is not JSON serializable")
     (logged (fst (sd_updates [("u1", "A"); (EmptyString, "B")] world0))).
Proof.
  destruct (encode_failures_are_logged world0 [("u1", "A"); (EmptyString, "B")]
              (EmptyString, "B") ltac:(reflexivity) ltac:(right; left; reflexivity))
    as (_ & H).
  destruct (H (Error "TypeError" "Object is not JSON serializable") ltac:(reflexivity))
    as (Hu & _ & Hl).
  split; [exact Hu|].
  exact (proj1 (Hl "TypeError: Object is not JSON serializable"
                   ltac:(right; left; reflexivity))).
Defined.

Lemma no_collision_sends_nothing_witness :
  snd (bd_create (encode_string "uuid-7|Ball") world0) = Return tt /\
  client (fst (bd_create (encode_string "uuid-7|Ball") world0)) = [] /\
  logged (fst (bd_create (encode_string "uuid-7|Ball") world0))
  = [mkLog INFO "build_data_create: Ball uuid-7"].
Proof.
  exact (no_collision_sends_nothing world0 (encode_string "uuid-7|Ball") "uuid-7|Ball" 15
           ("uuid-7", "Ball") [("uuid-0", "Cube"); ("uuid-7", "Ball")] "uuid-7" None
           ltac:(reflexivity) ltac:(reflexivity) ltac:(reflexivity) ltac:(reflexivity)
           ltac:(left; reflexivity)).
Defined.

Lemma dirty_follows_store_success_witness :
  dirty (fst (bd_remove ghost_removal_payload world0)) = false /\
  calls (fst (bd_remove ghost_removal_payload world0)) = [RemoveDatablock "ghost"] /\
  dirty (fst (bd_remove (encode_string "uuid-1" ++ encode_string "obj A") world1)) = true.
Proof.
  split; [|split].
  - destruct (dirty_follows_store_success world0 ghost_removal_payload ltac:(reflexivity))
      as (H & _).
    destruct (H "ghost" 9 "obj" 16 [("uuid-0", "Cube")] (Raise (Error "KeyError" "ghost"))
                ltac:(reflexivity) ltac:(reflexivity) ltac:(reflexivity))
      as (_ & Hd & _).
    exact Hd.
  - destruct (dirty_follows_store_success world0 ghost_removal_payload ltac:(reflexivity))
      as (H & _).
    destruct (H "ghost" 9 "obj" 16 [("uuid-0", "Cube")] (Raise (Error "KeyError" "ghost"))
                ltac:(reflexivity) ltac:(reflexivity) ltac:(reflexivity))
      as (_ & _ & Hc).
    exact Hc.
  - destruct (dirty_follows_store_success world1
                (encode_string "uuid-1" ++ encode_string "obj A") ltac:(reflexivity))
      as (H & _).
    destruct (H "uuid-1" 10 "obj A" 19 [("uuid-0", "Cube")] (Return tt)
                ltac:(reflexivity) ltac:(reflexivity) ltac:(reflexivity))
      as (_ & Hd & _).
    exact Hd.
Defined.

Lemma undecodable_payload_leaves_store_witness :
  calls (fst (bd_update garbage_payload world0)) = [] /\
  dirty (fst (bd_update garbage_payload world0)) = false /\
  bpy_data_proxy (fst (bd_create garbage_payload world0)) = [("uuid-0", "Cube")].
Proof.
  destruct (undecodable_payload_leaves_store world0 garbage_payload "garbage" 11
              (Error "JSONDecodeError" "Expecting value")
              ltac:(reflexivity) ltac:(reflexivity) ltac:(reflexivity))
    as ((Hs & _) & (_ & Hd & Hc & _)).
  split; [exact Hc | split; [exact Hd | exact Hs]].
Defined.

Lemma sent_record_reaches_store_witness :
  exists payload,
    client (fst (sd_creations [("uuid-7", "Ball")] world0))
    = [mkCommand BLENDER_DATA_CREATE payload 0] /\
    calls (fst (bd_create payload world1))
    = [SetDirty; CreateDatablock ("uuid-7", "Ball")] /\
    bpy_data_proxy (fst (bd_create payload world1))
    = [("uuid-0", "Cube"); ("uuid-1", "Lamp"); ("uuid-7", "Ball")].
Proof.
  assert (F : framed "uuid-7|Ball") by (apply demo_framed; vm_compute; reflexivity).
  assert (E : encode ("uuid-7", "Ball") = Return "uuid-7|Ball") by reflexivity.
  destruct (sent_record_reaches_store world0 world1 ("uuid-7", "Ball") "uuid-7|Ball"
              eq_refl eq_refl E (demo_codec_inverse ("uuid-7", "Ball")) F)
    as ((payload & H1 & H2 & H3) & _).
  exists payload. split; [exact H1 | split; [exact H2 | exact H3]].
Defined.


Lemma changeset_order_is_kept_witness :
  exists payloads,
    client (fst (sd_creations [("u1", "A"); ("u2", "B")] world0))
    = map (fun p => mkCommand BLENDER_DATA_CREATE p 0) payloads /\
    client (fst (sd_updates [("u1", "A"); ("u2", "B")] world0))
    = map (fun p => mkCommand BLENDER_DATA_UPDATE p 0) payloads /\
    length payloads = 2%nat /\
    map decode_payload payloads = [Return ("u1", "A"); Return ("u2", "B")].
Proof.
  assert (H : Forall (fun r : IdProxy =>
                        exists s, encode r = Return s /\ framed s /\ codec_inverse r)
                     [("u1", "A"); ("u2", "B")]).
  { repeat constructor;
      (eexists; split; [reflexivity|];
       split; [apply demo_framed; vm_compute; reflexivity | apply demo_codec_inverse]). }
  destruct (changeset_order_is_kept world0 [("u1", "A"); ("u2", "B")] eq_refl H)
    as (payloads & H1 & H2 & H3 & H4).
  exists payloads.
  split; [exact H1|]. split; [exact H2|]. split; [exact H3 | exact H4].
Defined.


End MoreInstances.
